(** * Partition-table analyzer: a shallow embedding of the two Go programs

    The repository holds two copies of one decoder: the browser binding
    ([wasm-ver.go], functions [analyzeDiskImage], [readMBRPartitions],
    [readGPTPartitions]) and the command-line tool (the second source file,
    functions [main], [readMBRPartitions], [readGPTPartitions] reading from an
    [os.File]).  Both are embedded below, function by function.

    Conventions of the embedding.
    - A [[]byte] is a Go slice: a window [lo, hi) on a backing array, whose
      capacity runs to the end of the array.  Indexing outside [0, len) and
      re-slicing outside [0, cap] panic; a panic is the value [Panic] of the
      [result] monad.
    - Go's [int] is 64 bits wide on both targets of the repository
      (GOARCH=wasm and the 64-bit native targets): [int(x)] of an unsigned
      64-bit value reinterprets it in two's complement, and [+] on [int]
      wraps.  [uint32] and [uint64] arithmetic wraps modulo 2^32 and 2^64.
    - [float64(n) / (1024*1024*1024)] is modelled exactly: [float64(n)] of an
      unsigned integer is the nearest 53-bit-mantissa integer (ties to even),
      and the division by 2^30 of such a value is exact in IEEE 754 binary64,
      so the quotient is the rational [float64(n) / 2^30]. *)

From Stdlib Require Import ZArith List String Ascii Bool Lia QArith.
From Stdlib Require Import Strings.Byte DecimalString.
Import ListNotations.
Open Scope Z_scope.

(** ** Panics *)

Inductive result (A : Type) : Type :=
| Ok (a : A)
| Panic.
Arguments Ok {A} a.
Arguments Panic {A}.

Definition bind {A B : Type} (m : result A) (k : A -> result B) : result B :=
  match m with
  | Ok a => k a
  | Panic => Panic
  end.

Notation "x <- m ;; k" := (bind m (fun x => k))
  (at level 61, m at next level, right associativity).

(** ** Machine integers *)

Definition u32 (z : Z) : Z := z mod 2 ^ 32.
Definition u64 (z : Z) : Z := z mod 2 ^ 64.

(** Two's-complement wrap into the range of a 64-bit [int]. *)
Definition int64 (z : Z) : Z := (z + 2 ^ 63) mod 2 ^ 64 - 2 ^ 63.

(** [a + b] on [int]. *)
Definition iadd (a b : Z) : Z := int64 (a + b).

Definition byteZ (b : byte) : Z := Z.of_N (Byte.to_N b).

(** ** Slices *)

Record slice : Type := mkSlice {
  arr : list byte;
  lo : Z;
  hi : Z
}.

Definition zlen {A : Type} (l : list A) : Z := Z.of_nat (List.length l).

Definition slen (s : slice) : Z := hi s - lo s.
Definition scap (s : slice) : Z := zlen (arr s) - lo s.

(** A freshly allocated buffer, or the [data] argument as the binding
    builds it with [make([]byte, dataLen)]: capacity equals length. *)
Definition whole (l : list byte) : slice := mkSlice l 0 (zlen l).

(** [s[j]] *)
Definition at_ (s : slice) (j : Z) : result byte :=
  if (0 <=? j) && (j <? slen s)
  then Ok (nth (Z.to_nat (lo s + j)) (arr s) x00)
  else Panic.

(** [s[a:b]] *)
Definition sub (s : slice) (a b : Z) : result slice :=
  if (0 <=? a) && (a <=? b) && (b <=? scap s)
  then Ok (mkSlice (arr s) (lo s + a) (lo s + b))
  else Panic.

(** The bytes a slice shows. *)
Definition content (s : slice) : list byte :=
  firstn (Z.to_nat (slen s)) (skipn (Z.to_nat (lo s)) (arr s)).

(** [make([]byte, n)] *)
Definition zeros (n : nat) : list byte := repeat x00 n.

(** [string(a) == string(b)] on byte sequences. *)
Fixpoint bytes_eqb (a b : list byte) : bool :=
  match a, b with
  | [], [] => true
  | x :: a', y :: b' => Byte.eqb x y && bytes_eqb a' b'
  | _, _ => false
  end.

(** ** encoding/binary, little endian *)

(** The byte of [l] at offset [i], as a number. *)
Definition byteAt (l : list byte) (i : Z) : Z := byteZ (nth (Z.to_nat i) l x00).

(** Little-endian value of the [n] bytes of [l] from offset [off]. *)
Fixpoint leAt (n : nat) (l : list byte) (off : Z) : Z :=
  match n with
  | O => 0
  | S n' => byteAt l off + 256 * leAt n' l (off + 1)
  end.

(** [binary.LittleEndian.Uint16(b)]: [_ = b[1]] first, then the bytes. *)
Definition Uint16 (b : slice) : result Z :=
  _ <- at_ b 1 ;; Ok (leAt 2 (arr b) (lo b)).

(** [binary.LittleEndian.Uint32(b)] *)
Definition Uint32 (b : slice) : result Z :=
  _ <- at_ b 3 ;; Ok (leAt 4 (arr b) (lo b)).

(** [binary.LittleEndian.Uint64(b)] *)
Definition Uint64 (b : slice) : result Z :=
  _ <- at_ b 7 ;; Ok (leAt 8 (arr b) (lo b)).

(** ** fmt *)

(** [%d] *)
Definition fmt_d (z : Z) : string := NilZero.string_of_int (Z.to_int z).

Definition hexDigit (d : Z) : ascii :=
  ascii_of_nat (Z.to_nat (if d <? 10 then 48 + d else 55 + d)).

(** [%02X] of a [uint8] *)
Definition fmt_02X (z : Z) : string :=
  String (hexDigit (z / 16)) (String (hexDigit (z mod 16)) EmptyString).

(** [float64(n)] for an unsigned integer [n], as the integer it denotes. *)
Definition float64_of_uint (x : Z) : Z :=
  let e := Z.log2 x - 52 in
  if e <=? 0 then x
  else
    let q := Z.shiftr x e in
    let r := Z.land x (Z.ones e) in
    let h := Z.shiftl 1 (e - 1) in
    let q' := if (h <? r) || ((r =? h) && Z.odd q) then q + 1 else q in
    Z.shiftl q' e.

(** [float64(n) / (1024 * 1024 * 1024)] *)
Definition gib (n : Z) : Q := Qmake (float64_of_uint n) (2 ^ 30).

(** ** Constants and records shared by the two programs *)

Definition MBR_SIGNATURE : Z := 0xAA55.
Definition GPT_SIGNATURE : list byte := [x45; x46; x49; x20; x50; x41; x52; x54].
Definition SECTOR_SIZE : Z := 512.

Record PartitionInfo : Type := mkPartitionInfo {
  Number : Z;
  Status : string;
  Type_ : string;
  StartLBA : Z;
  EndLBA : Z;
  SizeGB : Q;
  Description : string;
  Name : string;
  Info : string;
  Note : string
}.

Record AnalysisResult : Type := mkAnalysisResult {
  Filename : string;
  TableType : string;
  Partitions : list PartitionInfo;
  Error : string;
  GPTRevision : string
}.

(** [string(b)] for a byte [b]: the UTF-8 encoding of the code point [b]. *)
Definition byte_of_Z (z : Z) : byte :=
  match Byte.of_N (Z.to_N (z mod 256)) with
  | Some b => b
  | None => x00
  end.

Definition ascii_of_Z (z : Z) : ascii := ascii_of_byte (byte_of_Z z).

Definition string_of_byte (b : byte) : string :=
  if byteZ b <? 128
  then String (ascii_of_byte b) EmptyString
  else String (ascii_of_Z (192 + byteZ b / 64))
         (String (ascii_of_Z (128 + byteZ b mod 64)) EmptyString).

(** [getMBRTypeDescription]: the same map literal in both programs. *)
Definition descriptions : list (Z * string) :=
  [ (0x00, "Empty"); (0x01, "FAT12"); (0x04, "FAT16 <32M"); (0x05, "Extended");
    (0x06, "FAT16"); (0x07, "HPFS/NTFS/exFAT"); (0x0B, "W95 FAT32");
    (0x0C, "W95 FAT32 (LBA)"); (0x0E, "W95 FAT16 (LBA)"); (0x0F, "W95 Ext'd (LBA)");
    (0x11, "Hidden FAT12"); (0x14, "Hidden FAT16 <32M"); (0x16, "Hidden FAT16");
    (0x17, "Hidden HPFS/NTFS"); (0x1B, "Hidden W95 FAT32");
    (0x1C, "Hidden W95 FAT32 (LBA)"); (0x1E, "Hidden W95 FAT16 (LBA)");
    (0x82, "Linux swap"); (0x83, "Linux"); (0x85, "Linux extended");
    (0x8E, "Linux LVM"); (0xA0, "Hibernation"); (0xA5, "FreeBSD"); (0xA6, "OpenBSD");
    (0xA8, "Darwin UFS"); (0xA9, "NetBSD"); (0xAB, "Darwin boot"); (0xAF, "HFS / HFS+");
    (0xBE, "Solaris boot"); (0xBF, "Solaris"); (0xEB, "BeOS fs"); (0xEE, "GPT");
    (0xEF, "EFI (FAT-12/16/32)"); (0xFB, "VMware VMFS"); (0xFC, "VMware VMKCORE");
    (0xFD, "Linux raid autodetect") ]%string.

Fixpoint lookup (k : Z) (m : list (Z * string)) : option string :=
  match m with
  | [] => None
  | (k', v) :: m' => if k =? k' then Some v else lookup k m'
  end.

Definition getMBRTypeDescription (partType : Z) : string :=
  match lookup partType descriptions with
  | Some desc => desc
  | None => "Unknown"
  end%string.

(** The type-GUID test, the same loop in both programs:
    [for j := 0; j < 16; j++ { if partBytes[j] != 0 { allZero = false; break } }] *)
Fixpoint allZeroLoop (fuel : nat) (partBytes : slice) (j : Z) : result bool :=
  match fuel with
  | O => Ok true
  | S fuel' =>
      if j <? 16 then
        b <- at_ partBytes j ;;
        if negb (byteZ b =? 0) then Ok false
        else allZeroLoop fuel' partBytes (iadd j 1)
      else Ok true
  end.

(** ** The browser binding, [wasm-ver.go] *)

Module Wasm.
Local Open Scope string_scope.
Local Open Scope Z_scope.

(** One turn of the loop of [readMBRPartitions]. *)
Definition mbrSlot (data : slice) (i : Z) (partitions : list PartitionInfo)
  : result (list PartitionInfo) :=
  let offset := iadd 446 (i * 16) in
  status <- at_ data offset ;;
  partType <- at_ data (iadd offset 4) ;;
  b <- sub data (iadd offset 8) (iadd offset 12) ;;
  startLBA <- Uint32 b ;;
  b <- sub data (iadd offset 12) (iadd offset 16) ;;
  sizeBlocks <- Uint32 b ;;
  if negb (byteZ partType =? 0) then
    let statusStr := if byteZ status =? 0x80 then "Active" else "Inactive" in
    let sizeGB := gib (u32 (sizeBlocks * SECTOR_SIZE)) in
    let typeDesc := getMBRTypeDescription (byteZ partType) in
    let partition :=
      mkPartitionInfo (iadd i 1) statusStr ("0x" ++ fmt_02X (byteZ partType))
        startLBA 0 sizeGB typeDesc "" "" "" in
    Ok (partitions ++ [partition])%list
  else Ok partitions.

(** [for i := 0; i < 4; i++] *)
Fixpoint mbrLoop (fuel : nat) (data : slice) (i : Z) (partitions : list PartitionInfo)
  : result (list PartitionInfo) :=
  match fuel with
  | O => Ok partitions
  | S fuel' =>
      if i <? 4 then
        partitions' <- mbrSlot data i partitions ;;
        mbrLoop fuel' data (iadd i 1) partitions'
      else Ok partitions
  end.

Definition readMBRPartitions (data : slice) : result (list PartitionInfo) :=
  mbrLoop 4 data 0 [].

(** A record with only [Number], [Info] and [Note] set. *)
Definition advisory (info note : string) : PartitionInfo :=
  mkPartitionInfo 1 "" "" 0 0 0 "" "" info note.

(** [for j := 56; j < 56+72 && j+1 < len(partBytes); j += 2] *)
Fixpoint nameLoop (fuel : nat) (partBytes : slice) (j : Z) (name : string)
  : result string :=
  match fuel with
  | O => Ok name
  | S fuel' =>
      if (j <? 56 + 72) && (iadd j 1 <? slen partBytes) then
        b0 <- at_ partBytes j ;;
        stop <- (if byteZ b0 =? 0
                 then b1 <- at_ partBytes (iadd j 1) ;; Ok (byteZ b1 =? 0)
                 else Ok false) ;;
        if stop then Ok name
        else
          b1 <- at_ partBytes (iadd j 1) ;;
          keep <- (if byteZ b1 =? 0
                   then c <- at_ partBytes j ;;
                        if 32 <=? byteZ c
                        then c' <- at_ partBytes j ;; Ok (byteZ c' <=? 126)
                        else Ok false
                   else Ok false) ;;
          if keep then
            c <- at_ partBytes j ;;
            nameLoop fuel' partBytes (iadd j 2) (name ++ string_of_byte c)
          else nameLoop fuel' partBytes (iadd j 2) name
      else Ok name
  end.

(** The body of the entry loop of [readGPTPartitions]; the state is
    [partCount] and [partitions]. *)
Definition gptEntry (data : slice) (partitionTableOffset partitionEntrySize i : Z)
  (st : Z * list PartitionInfo) : result (Z * list PartitionInfo) :=
  let entryOffset := iadd partitionTableOffset (u32 (i * partitionEntrySize)) in
  partBytes <- sub data entryOffset (iadd entryOffset partitionEntrySize) ;;
  allZero <- allZeroLoop 16 partBytes 0 ;;
  if negb allZero then
    let partCount := iadd (fst st) 1 in
    b <- sub partBytes 32 40 ;;
    startLBA <- Uint64 b ;;
    b <- sub partBytes 40 48 ;;
    endLBA <- Uint64 b ;;
    name <- nameLoop 36 partBytes 56 "" ;;
    let name := if String.eqb name "" then "Unnamed" else name in
    let sizeGB := gib (u64 ((endLBA - startLBA + 1) * SECTOR_SIZE)) in
    let partition :=
      mkPartitionInfo partCount "" "" startLBA endLBA sizeGB "" name "" "" in
    Ok (partCount, (snd st ++ [partition])%list)
  else Ok st.

(** [for i := uint32(0); i < numPartitions && partitionTableOffset +
    int(i*partitionEntrySize) + int(partitionEntrySize) <= len(data); i++].
    [i + 1] does not wrap: it is taken only when [i < numPartitions]. *)
Fixpoint gptLoop (fuel : nat) (data : slice)
  (partitionTableOffset partitionEntrySize numPartitions i : Z)
  (st : Z * list PartitionInfo) : result (Z * list PartitionInfo) :=
  match fuel with
  | O => Ok st
  | S fuel' =>
      if (i <? numPartitions)
         && (iadd (iadd partitionTableOffset (u32 (i * partitionEntrySize)))
               partitionEntrySize <=? slen data)
      then
        st' <- gptEntry data partitionTableOffset partitionEntrySize i st ;;
        gptLoop fuel' data partitionTableOffset partitionEntrySize numPartitions
          (i + 1) st'
      else Ok st
  end.

Definition revString (revision : Z) : string :=
  fmt_d (Z.shiftr revision 16) ++ "." ++ fmt_d (Z.land revision 0xFFFF).

Definition readGPTPartitions (data : slice) : result (list PartitionInfo) :=
  if slen data <? SECTOR_SIZE * 2 then
    Ok [advisory "GPT detected but insufficient data"
          "Need at least 1KB of data to read GPT header"]
  else
    headerBytes <- sub data SECTOR_SIZE (SECTOR_SIZE * 2) ;;
    sig <- sub headerBytes 0 8 ;;
    if negb (bytes_eqb (content sig) GPT_SIGNATURE) then
      Ok [advisory "Invalid GPT signature in header" "GPT structure may be corrupted"]
    else
      b <- sub headerBytes 8 12 ;;
      revision <- Uint32 b ;;
      b <- sub headerBytes 80 84 ;;
      numPartitions <- Uint32 b ;;
      b <- sub headerBytes 84 88 ;;
      partitionEntrySize <- Uint32 b ;;
      b <- sub headerBytes 72 80 ;;
      partitionTableLBA <- Uint64 b ;;
      let requiredSize :=
        iadd (int64 (u64 (partitionTableLBA * SECTOR_SIZE)))
             (u32 (numPartitions * partitionEntrySize)) in
      if slen data <? requiredSize then
        Ok [advisory
              ("GPT detected (Rev " ++ revString revision ++ ", "
                 ++ fmt_d numPartitions ++ " partitions)")
              ("Need at least " ++ fmt_d requiredSize
                 ++ " bytes to read all partition entries")]
      else
        let partitionTableOffset := int64 (u64 (partitionTableLBA * SECTOR_SIZE)) in
        st <- gptLoop (Z.to_nat numPartitions) data partitionTableOffset
                partitionEntrySize numPartitions 0 (0, []) ;;
        let partitions := snd st in
        if zlen partitions =? 0 then
          Ok [advisory ("GPT structure valid (Rev " ++ revString revision ++ ")")
                "No active partitions found in partition table"]
        else Ok partitions.

Definition analyzeDiskImage (data : slice) (filename : string) : result AnalysisResult :=
  let result := mkAnalysisResult filename "" [] "" "" in
  if slen data <? SECTOR_SIZE then
    Ok (mkAnalysisResult (Filename result) (TableType result) (Partitions result)
          "Data too small to contain MBR" (GPTRevision result))
  else
    b <- sub data 510 512 ;;
    signature <- Uint16 b ;;
    if negb (signature =? MBR_SIGNATURE) then
      Ok (mkAnalysisResult (Filename result) (TableType result) (Partitions result)
            "Invalid MBR signature" (GPTRevision result))
    else
      firstPartType <- at_ data (446 + 4) ;;
      if byteZ firstPartType =? 0xEE then
        partitions <- readGPTPartitions data ;;
        Ok (mkAnalysisResult (Filename result) "GPT" partitions (Error result)
              (GPTRevision result))
      else
        partitions <- readMBRPartitions data ;;
        Ok (mkAnalysisResult (Filename result) "MBR" partitions (Error result)
              (GPTRevision result)).

End Wasm.

(** ** The command-line tool *)

Module Cli.
Local Open Scope string_scope.
Local Open Scope Z_scope.

(** What the tool prints, one value per [Println] or [Printf] call.  A table
    row keeps the arguments of its [Printf] instead of the rendered text. *)
Inductive Line : Type :=
| Text (s : string)
| MBRRow (number : Z) (status : string) (partType startLBA : Z) (sizeGB : Q)
    (typeDesc : string)
| GPTRow (partCount startLBA endLBA : Z) (sizeGB : Q) (name : string).

Inductive outcome (A : Type) : Type :=
| Done (a : A)
| Exit (code : Z)
| Crash.
Arguments Done {A} a.
Arguments Exit {A} code.
Arguments Crash {A}.

(** A computation of the tool: the lines printed so far and how it went on. *)
Definition io (A : Type) : Type := (list Line * outcome A)%type.

Definition ret {A : Type} (a : A) : io A := ([], Done a).

Definition iobind {A B : Type} (m : io A) (k : A -> io B) : io B :=
  match m with
  | (o, Done a) => let (o', r) := k a in ((o ++ o')%list, r)
  | (o, Exit c) => (o, Exit c)
  | (o, Crash) => (o, Crash)
  end.

Notation "x <~ m ;; k" := (iobind m (fun x => k))
  (at level 61, m at next level, right associativity).
Notation "m ;;; k" := (iobind m (fun _ => k))
  (at level 61, right associativity).

Definition print (l : Line) : io unit := ([l], Done tt).
Definition exit {A : Type} (code : Z) : io A := ([], Exit code).
Definition lift {A : Type} (r : result A) : io A :=
  match r with
  | Ok a => ret a
  | Panic => ([], Crash)
  end.

(** An open file: its bytes and the read position. *)
Record File : Type := mkFile {
  bytes : list byte;
  pos : Z
}.

Inductive error : Type :=
| nil_
| EOF.

Definition fmt_v (e : error) : string :=
  match e with
  | nil_ => "<nil>"
  | EOF => "EOF"
  end.

Definition isErr (e : error) : bool :=
  match e with
  | nil_ => false
  | EOF => true
  end.

(** [b := make([]byte, n); k, err := file.Read(b)]: the file after the read,
    the buffer, [k] and [err].  A read of a regular file returns the bytes
    left, up to [n]; none left is [io.EOF]; [n = 0] reads nothing. *)
Definition Read (file : File) (n : Z) : File * slice * Z * error :=
  let avail := zlen (bytes file) - pos file in
  if n =? 0 then (file, whole [], 0, nil_)
  else if avail <=? 0 then (file, whole (zeros (Z.to_nat n)), 0, EOF)
  else
    let k := Z.min n avail in
    let got := firstn (Z.to_nat k) (skipn (Z.to_nat (pos file)) (bytes file)) in
    (mkFile (bytes file) (pos file + k),
     whole (got ++ zeros (Z.to_nat (n - k)))%list, k, nil_).

(** [file.Seek(offset, 0)]; a negative offset is refused and, the callers
    dropping the error, leaves the position where it was. *)
Definition Seek (file : File) (offset : Z) : File :=
  if offset <? 0 then file else mkFile (bytes file) offset.

Fixpoint nuls (n : nat) : string :=
  match n with
  | O => ""
  | S n' => String zero (nuls n')
  end.

Fixpoint spaces (n : nat) : string :=
  match n with
  | O => ""
  | S n' => String " " (spaces n')
  end.

(** [%-ns] *)
Definition padR (n : nat) (s : string) : string :=
  s ++ spaces (n - String.length s).

Definition nl : string := String (ascii_of_nat 10) "".

(** One turn of the loop of [readMBRPartitions]; the state is [partCount]. *)
Definition mbrSlot (mbr : slice) (i : Z) (partCount : Z) : io Z :=
  let offset := iadd 446 (i * 16) in
  status <~ lift (at_ mbr offset) ;;
  partType <~ lift (at_ mbr (iadd offset 4)) ;;
  b <~ lift (sub mbr (iadd offset 8) (iadd offset 12)) ;;
  startLBA <~ lift (Uint32 b) ;;
  b <~ lift (sub mbr (iadd offset 12) (iadd offset 16)) ;;
  sizeBlocks <~ lift (Uint32 b) ;;
  if negb (byteZ partType =? 0) then
    let partCount := iadd partCount 1 in
    let statusStr := if byteZ status =? 0x80 then "Active" else "Inactive" in
    let sizeGB := gib (u32 (sizeBlocks * SECTOR_SIZE)) in
    let typeDesc := getMBRTypeDescription (byteZ partType) in
    print (MBRRow (iadd i 1) statusStr (byteZ partType) startLBA sizeGB typeDesc) ;;;
    ret partCount
  else ret partCount.

Fixpoint mbrLoop (fuel : nat) (mbr : slice) (i : Z) (partCount : Z) : io Z :=
  match fuel with
  | O => ret partCount
  | S fuel' =>
      if i <? 4 then
        partCount' <~ mbrSlot mbr i partCount ;;
        mbrLoop fuel' mbr (iadd i 1) partCount'
      else ret partCount
  end.

Definition readMBRPartitions (mbr : slice) : io unit :=
  print (Text (nl ++ "Partitions:")) ;;;
  print (Text (padR 4 "#" ++ " " ++ padR 8 "Status" ++ " " ++ padR 12 "Type" ++ " "
                 ++ padR 12 "Start LBA" ++ " " ++ padR 12 "Size" ++ " "
                 ++ "Description")) ;;;
  print (Text (nuls 70)) ;;;
  partCount <~ mbrLoop 4 mbr 0 0 ;;
  if partCount =? 0 then print (Text "No partitions found") else ret tt.

(** [for j := 56; j < 56+72; j += 2] *)
Fixpoint nameLoop (fuel : nat) (partBytes : slice) (j : Z) (name : string)
  : result string :=
  match fuel with
  | O => Ok name
  | S fuel' =>
      if j <? 56 + 72 then
        b0 <- at_ partBytes j ;;
        stop <- (if byteZ b0 =? 0
                 then b1 <- at_ partBytes (iadd j 1) ;; Ok (byteZ b1 =? 0)
                 else Ok false) ;;
        if stop then Ok name
        else
          b1 <- at_ partBytes (iadd j 1) ;;
          if byteZ b1 =? 0 then
            c <- at_ partBytes j ;;
            nameLoop fuel' partBytes (iadd j 2) (name ++ string_of_byte c)
          else nameLoop fuel' partBytes (iadd j 2) name
      else Ok name
  end.

(** [for i := uint32(0); i < header.NumPartitions; i++], with its [break] on
    a short read; the state is the file and [partCount]. *)
Fixpoint gptLoop (fuel : nat) (PartitionEntrySize NumPartitions i : Z)
  (file : File) (partCount : Z) : io Z :=
  match fuel with
  | O => ret partCount
  | S fuel' =>
      if i <? NumPartitions then
        let '(file', partBytes, n, err) := Read file PartitionEntrySize in
        if isErr err || negb (u32 n =? PartitionEntrySize) then ret partCount
        else
          allZero <~ lift (allZeroLoop 16 partBytes 0) ;;
          if negb allZero then
            let partCount := iadd partCount 1 in
            b <~ lift (sub partBytes 32 40) ;;
            startLBA <~ lift (Uint64 b) ;;
            b <~ lift (sub partBytes 40 48) ;;
            endLBA <~ lift (Uint64 b) ;;
            name <~ lift (nameLoop 36 partBytes 56 "") ;;
            let name := if String.eqb name "" then "Unnamed" else name in
            let sizeGB := gib (u64 ((endLBA - startLBA + 1) * SECTOR_SIZE)) in
            print (GPTRow partCount startLBA endLBA sizeGB name) ;;;
            gptLoop fuel' PartitionEntrySize NumPartitions (i + 1) file' partCount
          else gptLoop fuel' PartitionEntrySize NumPartitions (i + 1) file' partCount
      else ret partCount
  end.

Definition readGPTPartitions (file : File) : io unit :=
  let file := Seek file SECTOR_SIZE in
  let '(file, headerBytes, n, err) := Read file 512 in
  if isErr err || negb (n =? 512) then
    print (Text ("Error reading GPT header: " ++ fmt_v err))
  else
    Signature <~ lift (sub headerBytes 0 8) ;;
    b <~ lift (sub headerBytes 8 12) ;;
    Revision <~ lift (Uint32 b) ;;
    b <~ lift (sub headerBytes 12 16) ;;
    HeaderSize <~ lift (Uint32 b) ;;
    b <~ lift (sub headerBytes 80 84) ;;
    NumPartitions <~ lift (Uint32 b) ;;
    b <~ lift (sub headerBytes 84 88) ;;
    PartitionEntrySize <~ lift (Uint32 b) ;;
    b <~ lift (sub headerBytes 72 80) ;;
    PartitionTableLBA <~ lift (Uint64 b) ;;
    if negb (bytes_eqb (content Signature) GPT_SIGNATURE) then
      print (Text "Invalid GPT signature")
    else
      print (Text ("GPT Revision: " ++ fmt_d (Z.shiftr Revision 16) ++ "."
                     ++ fmt_d (Z.land Revision 0xFFFF))) ;;;
      print (Text ("Number of Partitions: " ++ fmt_d NumPartitions)) ;;;
      let file := Seek file (int64 (u64 (PartitionTableLBA * SECTOR_SIZE))) in
      print (Text (nl ++ "Partitions:")) ;;;
      print (Text (padR 4 "#" ++ " " ++ padR 12 "Start LBA" ++ " "
                     ++ padR 12 "End LBA" ++ " " ++ padR 12 "Size" ++ " " ++ "Name")) ;;;
      print (Text (nuls 60)) ;;;
      partCount <~ gptLoop (Z.to_nat NumPartitions) PartitionEntrySize NumPartitions
                     0 file 0 ;;
      if partCount =? 0 then print (Text "No partitions found") else ret tt.

(** [main], from the program's arguments and a file system that maps a path
    to the file's bytes or to the error text of [os.Open]. *)
Definition main (Args : list string) (Open : string -> list byte + string) : io unit :=
  if negb (zlen Args =? 2) then
    print (Text ("Usage: " ++ nth 0 Args "" ++ " <disk_image_file>")) ;;; exit 1
  else
    let filename := nth 1 Args "" in
    match Open filename with
    | inr err => print (Text ("Error opening file: " ++ err)) ;;; exit 1
    | inl contents =>
        let file := mkFile contents 0 in
        let '(file, mbr, n, err) := Read file SECTOR_SIZE in
        if isErr err || negb (n =? SECTOR_SIZE) then
          print (Text ("Error reading MBR: " ++ fmt_v err)) ;;; exit 1
        else
          b <~ lift (sub mbr 510 512) ;;
          signature <~ lift (Uint16 b) ;;
          if negb (signature =? MBR_SIGNATURE) then
            print (Text "Invalid MBR signature") ;;; exit 1
          else
            print (Text ("Disk Image: " ++ filename)) ;;;
            print (Text ("=" ++ nuls (String.length filename + 12))) ;;;
            firstPartType <~ lift (at_ mbr (446 + 4)) ;;
            if byteZ firstPartType =? 0xEE then
              print (Text "Partition Table Type: GPT") ;;;
              readGPTPartitions file
            else
              print (Text "Partition Table Type: MBR") ;;;
              readMBRPartitions mbr
    end.

(** The partition rows among the printed lines. *)
Definition gptRows (out : list Line) : list (Z * Z * Z * Q * string) :=
  flat_map (fun l => match l with
                     | GPTRow n s e g nm => [(n, s, e, g, nm)]
                     | _ => []
                     end) out.

End Cli.

Notation "x <~ m ;; k" := (Cli.iobind m (fun x => k))
  (at level 61, m at next level, right associativity).
Notation "m ;;; k" := (Cli.iobind m (fun _ => k))
  (at level 61, right associativity).

(** ** Building disk images *)

Fixpoint le_bytes (n : nat) (z : Z) : list byte :=
  match n with
  | O => []
  | S n' => byte_of_Z z :: le_bytes n' (z / 256)
  end.

(** [put off bs l]: [l] with the bytes [bs] written at offset [off]. *)
Definition put (off : nat) (bs l : list byte) : list byte :=
  firstn off l ++ bs ++ skipn (off + List.length bs) l.

(** A boot sector: signature 0x55 0xAA at 510. *)
Definition bootSector : list byte := put 510 [x55; xaa] (zeros 512).

(** MBR slot [i] (0-based) with the given status, type, start and size. *)
Definition mbrEntry (i : nat) (status type : byte) (start size : Z) (l : list byte)
  : list byte :=
  put (446 + 16 * i) ([status; x00; x00; x00; type; x00; x00; x00]
                        ++ le_bytes 4 start ++ le_bytes 4 size) l.

(** The GPT header sector at offset 512. *)
Definition gptHeader (revision lba num size : Z) (l : list byte) : list byte :=
  put 512 GPT_SIGNATURE
    (put 520 (le_bytes 4 revision)
       (put 584 (le_bytes 8 lba)
          (put 592 (le_bytes 4 num)
             (put 596 (le_bytes 4 size) l)))).

(** A protective MBR followed by [n] zero bytes. *)
Definition protective (n : nat) : list byte :=
  mbrEntry 0 x00 xee 1 0xFFFFFFFF bootSector ++ zeros n.

(** The UTF-16LE bytes of code units given as (low, high) pairs. *)
Fixpoint utf16 (units : list (byte * byte)) : list byte :=
  match units with
  | [] => []
  | (l, h) :: us => l :: h :: utf16 us
  end.

(** A 128-byte GPT entry. *)
Definition gptEntryBytes (guid0 : byte) (start end_ : Z) (name : list (byte * byte))
  : list byte :=
  put 0 [guid0] (put 32 (le_bytes 8 start) (put 40 (le_bytes 8 end_)
    (put 56 (utf16 name) (zeros 128)))).

(** ** What the decoders read, as functions of the bytes *)

Local Open Scope string_scope.
Local Open Scope Z_scope.

(** The type byte of MBR slot [i] (0-based), at 446 + 16 i + 4. *)
Definition mbrType (data : list byte) (i : Z) : Z := byteAt data (450 + 16 * i).

(** The size in sectors of MBR slot [i], at 446 + 16 i + 12. *)
Definition mbrSize (data : list byte) (i : Z) : Z := leAt 4 data (458 + 16 * i).

(** The record [readMBRPartitions] builds for slot [i]. *)
Definition mbrRecord (data : list byte) (i : Z) : PartitionInfo :=
  mkPartitionInfo (i + 1)
    (if byteAt data (446 + 16 * i) =? 0x80 then "Active" else "Inactive")
    ("0x" ++ fmt_02X (mbrType data i))
    (leAt 4 data (454 + 16 * i)) 0
    (gib (u32 (mbrSize data i * SECTOR_SIZE)))
    (getMBRTypeDescription (mbrType data i)) "" "" "".

(** The fields of the GPT header in the second sector. *)
Definition hdrRevision (data : list byte) : Z := leAt 4 data 520.
Definition hdrLBA (data : list byte) : Z := leAt 8 data 584.
Definition hdrNum (data : list byte) : Z := leAt 4 data 592.
Definition hdrSize (data : list byte) : Z := leAt 4 data 596.
Definition hdrSigOk (data : list byte) : bool :=
  bytes_eqb (firstn 8 (skipn 512 data)) GPT_SIGNATURE.

(** The 16 bytes at [e] are all zero. *)
Definition guidZero (data : list byte) (e : Z) : Prop :=
  forall j, 0 <= j < 16 -> byteAt data (e + j) = 0.

(** A record that describes a partition, not an advisory one. *)
Definition isPartition (r : PartitionInfo) : bool := String.eqb (Info r) "".

(** The (index, startLBA, endLBA, sizeGB, name) tuples of the partition
    records of a result of the binding. *)
Definition gptTuples (ps : list PartitionInfo) : list (Z * Z * Z * Q * string) :=
  map (fun r => (Number r, StartLBA r, EndLBA r, SizeGB r, Name r))
    (filter isPartition ps).

(** The byte offset of the entry array, [int(partitionTableLBA * SECTOR_SIZE)]. *)
Definition tableOffset (data : list byte) : Z :=
  int64 (u64 (hdrLBA data * SECTOR_SIZE)).

(** [requiredSize] as [readGPTPartitions] computes it. *)
Definition requiredSize (data : list byte) : Z :=
  iadd (tableOffset data) (u32 (hdrNum data * hdrSize data)).

(** [entryOffset] of turn [i] of the entry loop. *)
Definition entryOffset (data : list byte) (i : Z) : Z :=
  iadd (tableOffset data) (u32 (i * hdrSize data)).

(** The three advisory records that depend on the header. *)
Definition truncatedAdvisory (data : list byte) : PartitionInfo :=
  Wasm.advisory
    ("GPT detected (Rev " ++ Wasm.revString (hdrRevision data) ++ ", "
       ++ fmt_d (hdrNum data) ++ " partitions)")
    ("Need at least " ++ fmt_d (requiredSize data)
       ++ " bytes to read all partition entries").

Definition emptyAdvisory (data : list byte) : PartitionInfo :=
  Wasm.advisory ("GPT structure valid (Rev " ++ Wasm.revString (hdrRevision data) ++ ")")
    "No active partitions found in partition table".

Definition badSignatureAdvisory : PartitionInfo :=
  Wasm.advisory "Invalid GPT signature in header" "GPT structure may be corrupted".

(** [p] is a prefix of [s]; [p] occurs in [s]. *)
Fixpoint isPrefix (p s : string) : bool :=
  match p, s with
  | EmptyString, _ => true
  | String a p', String b s' => Ascii.eqb a b && isPrefix p' s'
  | String _ _, EmptyString => false
  end.

Fixpoint occursIn (p s : string) : bool :=
  isPrefix p s ||
  match s with
  | EmptyString => false
  | String _ s' => occursIn p s'
  end.

(** Record [r] carries the start and end LBA stored in the entry at byte
    offset [e], an entry inside the buffer whose type GUID is not all zero. *)
Definition fromSlot (data : list byte) (e : Z) (r : PartitionInfo) : Prop :=
  0 <= e /\ e + 48 <= zlen data /\ ~ guidZero data e /\
  StartLBA r = leAt 8 data (e + 32) /\ EndLBA r = leAt 8 data (e + 40).

(** Every partition record of the reader's result has start LBA <= end LBA. *)
Definition lbasOrdered (data : list byte) : Prop :=
  forall ps r, Wasm.readGPTPartitions (whole data) = Ok ps ->
               In r ps -> isPartition r = true -> StartLBA r <= EndLBA r.



(** Printable ASCII, 32..126. *)
Definition printable (c : ascii) : bool :=
  (32 <=? Z.of_N (N_of_ascii c)) && (Z.of_N (N_of_ascii c) <=? 126).

Fixpoint allPrintable (s : string) : bool :=
  match s with
  | EmptyString => true
  | String c s' => printable c && allPrintable s'
  end.

(** The record [readGPTPartitions] builds for the entry at byte offset [e],
    under the number [n] and with the name [name] its name loop returned. *)
Definition gptRecord (data : list byte) (e n : Z) (name : string) : PartitionInfo :=
  mkPartitionInfo n "" "" (leAt 8 data (e + 32)) (leAt 8 data (e + 40))
    (gib (u64 ((leAt 8 data (e + 40) - leAt 8 data (e + 32) + 1) * SECTOR_SIZE)))
    "" (if String.eqb name "" then "Unnamed" else name) "" "".

(** Record [r] was decoded from some entry of [size] bytes of [data]. *)
Definition decodedFrom (data : list byte) (size : Z) (r : PartitionInfo) : Prop :=
  exists e name,
    Wasm.nameLoop 36 (mkSlice data e (iadd e size)) 56 "" = Ok name /\
    r = gptRecord data e (Number r) name.

(** The numbers [k+1 .. k+n]. *)
Definition countFrom (k n : nat) : list Z := map Z.of_nat (seq (S k) n).

(** The value of a hexadecimal digit, and of the text ["0xHH"]. *)
Definition hexVal (c : ascii) : option Z :=
  let n := Z.of_N (N_of_ascii c) in
  if (48 <=? n) && (n <=? 57) then Some (n - 48)
  else if (65 <=? n) && (n <=? 70) then Some (n - 55)
  else None.

Definition parseType (s : string) : option Z :=
  match s with
  | String "0" (String "x" (String a (String b EmptyString))) =>
      match hexVal a, hexVal b with
      | Some x, Some y => Some (16 * x + y)
      | _, _ => None
      end
  | _ => None
  end.

(** The MBR rows among the lines the tool prints. *)
Definition mbrRows (out : list Cli.Line) : list (Z * string * Z * Z * Q * string) :=
  flat_map (fun l => match l with
                     | Cli.MBRRow n st ty start g d => [(n, st, ty, start, g, d)]
                     | _ => []
                     end) out.

(** The same fields of a record of the binding; the type is the text
    ["0xHH"] there and the number in the tool's row. *)
Definition mbrTuple (r : PartitionInfo) : Z * string * string * Z * Q * string :=
  (Number r, Status r, Type_ r, StartLBA r, SizeGB r, Description r).

Definition rowAsTuple (t : Z * string * Z * Z * Q * string)
  : Z * string * string * Z * Q * string :=
  match t with
  | (n, st, ty, start, g, d) => (n, st, "0x" ++ fmt_02X ty, start, g, d)
  end.

(** The row the tool prints for MBR slot [i]. *)
Definition mbrRow (data : list byte) (i : Z) : Cli.Line :=
  Cli.MBRRow (i + 1)
    (if byteAt data (446 + 16 * i) =? 0x80 then "Active" else "Inactive")
    (mbrType data i) (leAt 4 data (454 + 16 * i))
    (gib (u32 (mbrSize data i * SECTOR_SIZE)))
    (getMBRTypeDescription (mbrType data i)).



(** The entry at byte offset [e] is in use: its 16 type-GUID bytes are not
    all zero. *)
Definition inUse (data : list byte) (e : Z) : bool :=
  negb (forallb (fun k => byteAt data (e + k) =? 0) (map Z.of_nat (seq 0 16))).

(** The slot indices [0 .. n-1]. *)
Definition slots (n : Z) : list Z := map Z.of_nat (seq 0 (Z.to_nat n)).

(** The (startLBA, endLBA) pairs of the partition records of a result. *)
Definition lbas (ps : list PartitionInfo) : list (Z * Z) :=
  map (fun r => (StartLBA r, EndLBA r)) (filter isPartition ps).

(** The stored (startLBA, endLBA) pair of the entry at byte offset [e]. *)
Definition storedLbas (data : list byte) (e : Z) : Z * Z :=
  (leAt 8 data (e + 32), leAt 8 data (e + 40)).

(** No number occurs twice. *)
Fixpoint distinctb (l : list Z) : bool :=
  match l with
  | [] => true
  | x :: l' => negb (existsb (Z.eqb x) l') && distinctb l'
  end.

(** ** Sample images *)

(** Slot 3 holds a Linux partition of 204800 sectors from LBA 2048. *)
Definition img_linux : list byte := mbrEntry 2 x80 x83 2048 204800 bootSector.

(** Slot 1 holds a partition of 2^23 sectors, 4 GiB. *)
Definition img_4g : list byte := mbrEntry 0 x00 x83 2048 (2 ^ 23) bootSector.

(** A GPT image of 1024 bytes whose header announces one entry of size 0. *)
Definition gpt_zero_size : list byte :=
  gptHeader 0x00010000 2 1 0 (protective 512).

(** A GPT image whose header places the entry array at LBA 2^54. *)
Definition gpt_far : list byte :=
  gptHeader 0x00010000 (2 ^ 54) 1 128 (protective 512).

(** A GPT image of 17408 bytes whose header announces 2^18 + 1 entries of
    2^14 bytes from LBA 2; the first entry is in use. *)
Definition gpt_wrap : list byte :=
  put 1024 (gptEntryBytes x01 34 2047 [])
    (gptHeader 0x00010000 2 (2 ^ 18 + 1) (2 ^ 14) (protective (512 + Z.to_nat (2 ^ 14)))).

(** One entry in use, whose start LBA 100 is above its end LBA 50. *)
Definition gpt_reversed : list byte :=
  put 1024 (gptEntryBytes x01 100 50 [])
    (gptHeader 0x00010000 2 1 128 (protective (512 + 128))).

(** Four entries of 128 bytes; the first is in use and named
    'A', U+0007, 'B'. *)
Definition gpt_bell : list byte :=
  put 1024 (gptEntryBytes x01 34 2047 [(x41, x00); (x07, x00); (x42, x00)])
    (gptHeader 0x00010000 2 4 128 (protective 1024)).

(** Four entries of 128 bytes; the first is in use and named "EFI". *)
Definition gpt_named : list byte :=
  put 1024 (gptEntryBytes x01 34 2047 [(x45, x00); (x46, x00); (x49, x00)])
    (gptHeader 0x00010000 2 4 128 (protective 1024)).

(** Four entries of 128 bytes; the first has an all-zero type GUID and
    non-zero start, end and name fields. *)
Definition gpt_unused : list byte :=
  put 1024 (gptEntryBytes x00 34 2047 [(x41, x00)])
    (gptHeader 0x00010000 2 4 128 (protective 1024)).

(** No entry in use, and only the header sector present. *)
Definition gpt_header_only : list byte :=
  gptHeader 0x00010000 2 128 128 (protective 512).

(** The header announces 128 entries of 128 bytes; the buffer ends after
    the first entry, which is in use and named "EFI". *)
Definition gpt_partial : list byte :=
  put 1024 (gptEntryBytes x01 34 2047 [(x45, x00); (x46, x00); (x49, x00)])
    (gptHeader 0x00010000 2 128 128 (protective (512 + 128))).

(** Inner sums first: each [iadd] whose operands are known to be small. *)
Ltac iadds :=
  repeat match goal with
         | |- context [iadd ?a ?b] =>
             replace (iadd a b) with (a + b)
               by (unfold iadd, int64; rewrite Z.mod_small; lia)
         end.

(** ** Basic facts *)

Lemma byteZ_range (b : byte) : 0 <= byteZ b < 256.
Proof.
  unfold byteZ. pose proof (Byte.to_N_bounded b). lia.
Qed.

Lemma byteAt_range (l : list byte) (i : Z) : 0 <= byteAt l i < 256.
Proof. apply byteZ_range. Qed.

Lemma leAt_range (n : nat) (l : list byte) (off : Z) :
  0 <= leAt n l off < 256 ^ Z.of_nat n.
Proof.
  revert off. induction n as [|n IH]; intro off.
  - simpl. lia.
  - rewrite Nat2Z.inj_succ, Z.pow_succ_r by lia.
    cbn [leAt]. pose proof (byteAt_range l off). specialize (IH (off + 1)). lia.
Qed.

Lemma le2_range l off : 0 <= leAt 2 l off < 2 ^ 16.
Proof. apply (leAt_range 2). Qed.

Lemma le4_range l off : 0 <= leAt 4 l off < 2 ^ 32.
Proof. apply (leAt_range 4). Qed.

Lemma le8_range l off : 0 <= leAt 8 l off < 2 ^ 64.
Proof. apply (leAt_range 8). Qed.


Lemma int64_small (z : Z) : - 2 ^ 63 <= z < 2 ^ 63 -> int64 z = z.
Proof.
  intro H. unfold int64. rewrite Z.mod_small; lia.
Qed.

Lemma iadd_small (a b : Z) : - 2 ^ 63 <= a + b < 2 ^ 63 -> iadd a b = a + b.
Proof. apply int64_small. Qed.

Lemma u32_small (z : Z) : 0 <= z < 2 ^ 32 -> u32 z = z.
Proof. intro H. unfold u32. apply Z.mod_small. lia. Qed.

Lemma u64_small (z : Z) : 0 <= z < 2 ^ 64 -> u64 z = z.
Proof. intro H. unfold u64. apply Z.mod_small. lia. Qed.

Lemma at_mk (l : list byte) (a b j : Z) :
  0 <= j < b - a -> at_ (mkSlice l a b) j = Ok (nth (Z.to_nat (a + j)) l x00).
Proof.
  intro H. unfold at_, slen. cbn [lo hi arr].
  destruct (Z.leb_spec 0 j); [|lia]. destruct (Z.ltb_spec j (b - a)); [|lia].
  reflexivity.
Qed.


Lemma sub_mk (l : list byte) (a b x y : Z) :
  0 <= x <= y -> y <= zlen l - a ->
  sub (mkSlice l a b) x y = Ok (mkSlice l (a + x) (a + y)).
Proof.
  intros H1 H2. unfold sub, scap. cbn [lo hi arr].
  destruct (Z.leb_spec 0 x); [|lia]. destruct (Z.leb_spec x y); [|lia].
  destruct (Z.leb_spec y (zlen l - a)); [|lia]. reflexivity.
Qed.

Lemma sub_mk_panic (l : list byte) (a b x y : Z) :
  x < 0 \/ y < x \/ zlen l - a < y -> sub (mkSlice l a b) x y = Panic.
Proof.
  intro H. unfold sub, scap. cbn [lo hi arr].
  destruct (Z.leb_spec 0 x); destruct (Z.leb_spec x y);
    destruct (Z.leb_spec y (zlen l - a)); try lia; reflexivity.
Qed.

Lemma Uint16_mk (l : list byte) (a b : Z) :
  2 <= b - a -> Uint16 (mkSlice l a b) = Ok (leAt 2 l a).
Proof. intro H. unfold Uint16. rewrite at_mk by lia. reflexivity. Qed.

Lemma Uint32_mk (l : list byte) (a b : Z) :
  4 <= b - a -> Uint32 (mkSlice l a b) = Ok (leAt 4 l a).
Proof. intro H. unfold Uint32. rewrite at_mk by lia. reflexivity. Qed.

Lemma Uint64_mk (l : list byte) (a b : Z) :
  8 <= b - a -> Uint64 (mkSlice l a b) = Ok (leAt 8 l a).
Proof. intro H. unfold Uint64. rewrite at_mk by lia. reflexivity. Qed.

(** ** The MBR reader *)

Lemma mbrSlot_spec (data : list byte) (i : Z) (ps : list PartitionInfo) :
  512 <= zlen data -> 0 <= i < 4 ->
  Wasm.mbrSlot (whole data) i ps =
  Ok (if mbrType data i =? 0 then ps else (ps ++ [mbrRecord data i])%list).
Proof.
  intros Hlen Hi. unfold Wasm.mbrSlot, whole. iadds.
  rewrite !at_mk by lia. cbn [bind].
  rewrite !sub_mk by lia. cbn [bind].
  rewrite !Uint32_mk by lia. cbn [bind].
  unfold mbrType, mbrSize, mbrRecord, mbrType, byteAt.
  replace (0 + (446 + i * 16 + 4)) with (450 + 16 * i) by lia.
  replace (0 + (446 + i * 16)) with (446 + 16 * i) by lia.
  replace (0 + (446 + i * 16 + 8)) with (454 + 16 * i) by lia.
  replace (0 + (446 + i * 16 + 12)) with (458 + 16 * i) by lia.
  destruct (byteZ (nth (Z.to_nat (450 + 16 * i)) data x00) =? 0); reflexivity.
Qed.

Lemma readMBRPartitions_spec (data : list byte) :
  512 <= zlen data ->
  Wasm.readMBRPartitions (whole data) =
  Ok (flat_map (fun i => if mbrType data i =? 0 then [] else [mbrRecord data i])
        [0; 1; 2; 3]).
Proof.
  intro Hlen. unfold Wasm.readMBRPartitions. cbn [Wasm.mbrLoop].
  change (0 <? 4) with true. cbv iota.
  rewrite mbrSlot_spec by lia. cbn [bind].
  change (iadd 0 1) with 1. change (1 <? 4) with true. cbv iota.
  rewrite mbrSlot_spec by lia. cbn [bind].
  change (iadd 1 1) with 2. change (2 <? 4) with true. cbv iota.
  rewrite mbrSlot_spec by lia. cbn [bind].
  change (iadd 2 1) with 3. change (3 <? 4) with true. cbv iota.
  rewrite mbrSlot_spec by lia. cbn [bind].
  cbn [flat_map].
  destruct (mbrType data 0 =? 0), (mbrType data 1 =? 0),
    (mbrType data 2 =? 0), (mbrType data 3 =? 0); reflexivity.
Qed.

(** C8.  For every sector of at least 512 bytes the MBR reader returns, and
    the numbers of its records are exactly the 1-based indices of the slots
    whose type byte is not zero, in slot order: a slot with type byte 0 gives
    no record whatever its other bytes are, and a record keeps the raw index
    of its slot, so skipped slots leave gaps. *)
Theorem mbr_records_keep_slot_index (data : list byte) :
  512 <= zlen data ->
  exists ps,
    Wasm.readMBRPartitions (whole data) = Ok ps /\
    map Number ps = filter (fun k => negb (mbrType data (k - 1) =? 0)) [1; 2; 3; 4] /\
    (forall i, 0 <= i < 4 -> mbrType data i = 0 ->
               forall r, In r ps -> Number r <> i + 1) /\
    (forall r, In r ps ->
               exists i, 0 <= i < 4 /\ mbrType data i <> 0 /\ r = mbrRecord data i
                         /\ Number r = i + 1).
Proof.
  intro Hlen. eexists. split; [apply readMBRPartitions_spec; exact Hlen|].
  assert (Hin : forall r,
             In r (flat_map (fun i => if mbrType data i =? 0 then []
                                      else [mbrRecord data i]) [0; 1; 2; 3]) ->
             exists i, 0 <= i < 4 /\ mbrType data i <> 0 /\ r = mbrRecord data i
                       /\ Number r = i + 1).
  { intros r Hr. apply in_flat_map in Hr. destruct Hr as [i [Hi Hr]].
    exists i. destruct (Z.eqb_spec (mbrType data i) 0) as [Hz | Hz].
    - destruct Hr.
    - destruct Hr as [<- | []].
      repeat split; try assumption; cbn in Hi; lia. }
  split; [|split].
  - cbn [flat_map filter]. change (1 - 1) with 0. change (2 - 1) with 1.
    change (3 - 1) with 2. change (4 - 1) with 3.
    destruct (mbrType data 0 =? 0), (mbrType data 1 =? 0),
      (mbrType data 2 =? 0), (mbrType data 3 =? 0); reflexivity.
  - intros i Hi Hz r Hr Hn.
    destruct (Hin r Hr) as [k [Hk [Hnz [_ Hnum]]]].
    assert (k = i) by lia. subst k. contradiction.
  - exact Hin.
Qed.

(** The theorem on [img_linux]. *)
Lemma mbr_records_keep_slot_index_witness :
  512 <= zlen img_linux /\
  exists ps,
    Wasm.readMBRPartitions (whole img_linux) = Ok ps /\
    map Number ps = filter (fun k => negb (mbrType img_linux (k - 1) =? 0)) [1; 2; 3; 4] /\
    (forall i, 0 <= i < 4 -> mbrType img_linux i = 0 ->
               forall r, In r ps -> Number r <> i + 1) /\
    (forall r, In r ps ->
               exists i, 0 <= i < 4 /\ mbrType img_linux i <> 0
                         /\ r = mbrRecord img_linux i /\ Number r = i + 1).
Proof.
  split.
  - vm_compute. discriminate.
  - apply (mbr_records_keep_slot_index img_linux). vm_compute. discriminate.
Defined.

(** The only non-empty slot of [img_linux] is reported under the number 3. *)
Example img_linux_numbers :
  exists r, Wasm.readMBRPartitions (whole img_linux) = Ok [r] /\ Number r = 3
            /\ Description r = "Linux" /\ StartLBA r = 2048
            /\ SizeGB r = Qmake (204800 * 512) (2 ^ 30).
Proof. eexists. vm_compute. repeat split. Qed.

(** ** The size of an MBR partition *)

Lemma float64_exact (x : Z) : 0 <= x < 2 ^ 53 -> float64_of_uint x = x.
Proof.
  intro H. unfold float64_of_uint.
  destruct (Z.eq_dec x 0) as [-> | Hx]; [reflexivity|].
  assert (Z.log2 x < 53) by (apply Z.log2_lt_pow2; lia).
  destruct (Z.leb_spec (Z.log2 x - 52) 0); [reflexivity | lia].
Qed.

(** What the code computes: the product is taken in [uint32]. *)
Lemma mbrRecord_size (data : list byte) (i : Z) :
  SizeGB (mbrRecord data i) = Qmake ((mbrSize data i * 512) mod 2 ^ 32) (2 ^ 30).
Proof.
  unfold mbrRecord, gib, u32, SECTOR_SIZE. cbn [SizeGB].
  rewrite float64_exact; [reflexivity|].
  pose proof (Z.mod_pos_bound (mbrSize data i * 512) (2 ^ 32)). lia.
Qed.

(** Below 2^23 sectors (4 GiB) the product does not wrap and the size is the
    one of the specification. *)
Lemma mbrRecord_size_below_4GiB (data : list byte) (i : Z) :
  mbrSize data i < 2 ^ 23 ->
  SizeGB (mbrRecord data i) = Qmake (mbrSize data i * 512) (2 ^ 30).
Proof.
  intro H. rewrite mbrRecord_size. rewrite Z.mod_small; [reflexivity|].
  pose proof (le4_range data (458 + 16 * i)). unfold mbrSize in *. lia.
Qed.

(** C3, at the failing input [img_4g]: slot 1 has type 0x83 and a size of
    2^23 sectors; the reader reports 0 GB where sizeInSectors * 512 / 1024^3
    is 4. *)
Theorem mbr_size_wraps_at_4GiB :
  mbrType img_4g 0 = 0x83 /\ mbrSize img_4g 0 = 2 ^ 23 /\
  exists r, Wasm.readMBRPartitions (whole img_4g) = Ok [r] /\
            Number r = 1 /\
            (SizeGB r == 0)%Q /\
            (Qmake (mbrSize img_4g 0 * 512) (2 ^ 30) == 4)%Q /\
            ~ (SizeGB r == Qmake (mbrSize img_4g 0 * 512) (2 ^ 30))%Q.
Proof.
  split; [reflexivity|]. split; [reflexivity|].
  eexists. split; [vm_compute; reflexivity|].
  split; [reflexivity|]. split; [reflexivity|]. split; [reflexivity|].
  vm_compute. discriminate.
Qed.

(** The command-line tool prints the same wrapped size for [img_4g]. *)
Example cli_size_wraps_at_4GiB :
  exists out,
    Cli.main ["analyzer"; "disk.img"] (fun _ => inl img_4g) = (out, Cli.Done tt) /\
    In (Cli.MBRRow 1 "Inactive" 0x83 2048 (Qmake 0 (2 ^ 30)) "Linux") out.
Proof. eexists. split; [vm_compute; reflexivity|]. cbn. tauto. Qed.

(** ** The detector and the hard errors *)

Lemma analyze_short (data : list byte) (fn : string) :
  zlen data < 512 ->
  Wasm.analyzeDiskImage (whole data) fn =
  Ok (mkAnalysisResult fn "" [] "Data too small to contain MBR" "").
Proof.
  intro H. unfold Wasm.analyzeDiskImage, whole, slen, SECTOR_SIZE. cbn [lo hi arr].
  destruct (Z.ltb_spec (zlen data - 0) 512); [reflexivity | lia].
Qed.

Lemma analyze_long (data : list byte) (fn : string) :
  512 <= zlen data ->
  Wasm.analyzeDiskImage (whole data) fn =
  if negb (leAt 2 data 510 =? MBR_SIGNATURE) then
    Ok (mkAnalysisResult fn "" [] "Invalid MBR signature" "")
  else if byteAt data 450 =? 0xEE then
    partitions <- Wasm.readGPTPartitions (whole data) ;;
    Ok (mkAnalysisResult fn "GPT" partitions "" "")
  else
    partitions <- Wasm.readMBRPartitions (whole data) ;;
    Ok (mkAnalysisResult fn "MBR" partitions "" "").
Proof.
  intro H. unfold Wasm.analyzeDiskImage.
  unfold whole at 1 2 3, slen, SECTOR_SIZE. cbn [lo hi arr].
  destruct (Z.ltb_spec (zlen data - 0) 512); [lia|].
  rewrite sub_mk by lia. cbn [bind]. rewrite Uint16_mk by lia. cbn [bind].
  rewrite at_mk by lia. cbn [bind].
  reflexivity.
Qed.

(** C2.  On an input of at least 512 bytes whose bytes [510,512) read
    0xAA55, the binding returns the GPT reader's records under the table type
    "GPT" when the byte at 450 is 0xEE and the MBR reader's records under
    "MBR" otherwise, so a returned report says "GPT" if and only if that byte
    is 0xEE; with any other signature it returns the report whose error is
    "Invalid MBR signature", with no table type and no record. *)
Theorem detector_classifies (data : list byte) (fn : string) :
  512 <= zlen data ->
  (leAt 2 data 510 = MBR_SIGNATURE ->
     (byteAt data 450 = 0xEE ->
        Wasm.analyzeDiskImage (whole data) fn =
        (ps <- Wasm.readGPTPartitions (whole data) ;;
         Ok (mkAnalysisResult fn "GPT" ps "" ""))) /\
     (byteAt data 450 <> 0xEE ->
        exists ps, Wasm.readMBRPartitions (whole data) = Ok ps /\
                   Wasm.analyzeDiskImage (whole data) fn =
                   Ok (mkAnalysisResult fn "MBR" ps "" "")) /\
     (forall r, Wasm.analyzeDiskImage (whole data) fn = Ok r ->
                Error r = "" /\
                (TableType r = "GPT" <-> byteAt data 450 = 0xEE) /\
                (TableType r = "MBR" <-> byteAt data 450 <> 0xEE))) /\
  (leAt 2 data 510 <> MBR_SIGNATURE ->
     Wasm.analyzeDiskImage (whole data) fn =
     Ok (mkAnalysisResult fn "" [] "Invalid MBR signature" "")).
Proof.
  intro Hlen. rewrite (analyze_long data fn Hlen).
  destruct (Z.eqb_spec (leAt 2 data 510) MBR_SIGNATURE) as [Hs | Hs]; cbn [negb].
  - split; [intros _ | intro; contradiction].
    destruct (Z.eqb_spec (byteAt data 450) 0xEE) as [He | He].
    + split; [reflexivity|]. split; [intro; contradiction|].
      intros r Hr.
      destruct (Wasm.readGPTPartitions (whole data)) as [ps|]; [|discriminate].
      cbn [bind] in Hr. injection Hr as <-. cbn [Error TableType].
      split; [reflexivity|]. split; split; intro H;
        try reflexivity; try assumption; try discriminate; contradiction.
    + rewrite (readMBRPartitions_spec data Hlen). cbn [bind].
      split; [intro; contradiction|].
      split; [intros _; eexists; split; reflexivity|].
      intros r Hr. injection Hr as <-. cbn [Error TableType].
      split; [reflexivity|]. split; split; intro H;
        try reflexivity; try assumption; try discriminate; contradiction.
  - split; [intro; contradiction | reflexivity].
Qed.

(** The theorem on [img_linux], a sector with the 0xAA55 signature. *)
Lemma detector_classifies_witness :
  512 <= zlen img_linux /\
  (leAt 2 img_linux 510 = MBR_SIGNATURE ->
     (byteAt img_linux 450 = 0xEE ->
        Wasm.analyzeDiskImage (whole img_linux) "disk.img" =
        (ps <- Wasm.readGPTPartitions (whole img_linux) ;;
         Ok (mkAnalysisResult "disk.img" "GPT" ps "" ""))) /\
     (byteAt img_linux 450 <> 0xEE ->
        exists ps, Wasm.readMBRPartitions (whole img_linux) = Ok ps /\
                   Wasm.analyzeDiskImage (whole img_linux) "disk.img" =
                   Ok (mkAnalysisResult "disk.img" "MBR" ps "" "")) /\
     (forall r, Wasm.analyzeDiskImage (whole img_linux) "disk.img" = Ok r ->
                Error r = "" /\
                (TableType r = "GPT" <-> byteAt img_linux 450 = 0xEE) /\
                (TableType r = "MBR" <-> byteAt img_linux 450 <> 0xEE))) /\
  (leAt 2 img_linux 510 <> MBR_SIGNATURE ->
     Wasm.analyzeDiskImage (whole img_linux) "disk.img" =
     Ok (mkAnalysisResult "disk.img" "" [] "Invalid MBR signature" "")).
Proof.
  split.
  - vm_compute. discriminate.
  - apply (detector_classifies img_linux "disk.img"). vm_compute. discriminate.
Defined.

(** C10.  Whenever the binding returns a report whose error field is set,
    the report has no table type and no partition, and the input was shorter
    than 512 bytes or its boot signature was not 0xAA55. *)
Theorem hard_error_has_no_partitions (data : list byte) (fn : string)
  (r : AnalysisResult) :
  Wasm.analyzeDiskImage (whole data) fn = Ok r ->
  Error r <> "" ->
  TableType r = "" /\ Partitions r = [] /\
  (zlen data < 512 \/ leAt 2 data 510 <> MBR_SIGNATURE).
Proof.
  intros Hr He.
  destruct (Z.lt_ge_cases (zlen data) 512) as [Hlen | Hlen].
  - rewrite (analyze_short data fn Hlen) in Hr. injection Hr as <-.
    cbn [TableType Partitions]. auto.
  - rewrite (analyze_long data fn Hlen) in Hr.
    destruct (Z.eqb_spec (leAt 2 data 510) MBR_SIGNATURE) as [Hs | Hs];
      cbn [negb] in Hr.
    + exfalso. apply He.
      destruct (byteAt data 450 =? 0xEE).
      * destruct (Wasm.readGPTPartitions (whole data)); [|discriminate].
        cbn [bind] in Hr. injection Hr as <-. reflexivity.
      * destruct (Wasm.readMBRPartitions (whole data)); [|discriminate].
        cbn [bind] in Hr. injection Hr as <-. reflexivity.
    + injection Hr as <-. cbn [TableType Partitions]. auto.
Qed.

(** The theorem on a sector of 512 zero bytes, which has no boot signature. *)
Lemma hard_error_has_no_partitions_witness :
  let r := mkAnalysisResult "disk.img" "" [] "Invalid MBR signature" "" in
  Wasm.analyzeDiskImage (whole (zeros 512)) "disk.img" = Ok r /\
  Error r <> "" /\
  TableType r = "" /\ Partitions r = [] /\
  (zlen (zeros 512) < 512 \/ leAt 2 (zeros 512) 510 <> MBR_SIGNATURE).
Proof.
  intro r.
  assert (H1 : Wasm.analyzeDiskImage (whole (zeros 512)) "disk.img" = Ok r)
    by (vm_compute; reflexivity).
  assert (H2 : Error r <> "") by (vm_compute; discriminate).
  split; [exact H1|]. split; [exact H2|].
  exact (hard_error_has_no_partitions (zeros 512) "disk.img" r H1 H2).
Defined.

(** Conversely, each of the two hard failures sets the error field. *)
Lemma hard_failures_set_error (data : list byte) (fn : string) (r : AnalysisResult) :
  Wasm.analyzeDiskImage (whole data) fn = Ok r ->
  zlen data < 512 \/ leAt 2 data 510 <> MBR_SIGNATURE ->
  Error r <> "".
Proof.
  intros Hr [Hlen | Hs].
  - rewrite (analyze_short data fn Hlen) in Hr. injection Hr as <-.
    cbn [Error]. discriminate.
  - destruct (Z.lt_ge_cases (zlen data) 512) as [Hlen | Hlen].
    + rewrite (analyze_short data fn Hlen) in Hr. injection Hr as <-.
      cbn [Error]. discriminate.
    + rewrite (analyze_long data fn Hlen) in Hr.
      destruct (Z.eqb_spec (leAt 2 data 510) MBR_SIGNATURE); [contradiction|].
      cbn [negb] in Hr. injection Hr as <-. cbn [Error]. discriminate.
Qed.

(** ** Windows on a byte sequence *)

Lemma nth_firstn_skipn (l : list byte) (k n i : nat) :
  (i < n)%nat -> nth i (firstn n (skipn k l)) x00 = nth (k + i) l x00.
Proof.
  intro H. rewrite nth_firstn.
  destruct (Nat.ltb_spec i n); [|lia].
  apply nth_skipn.
Qed.

Lemma byteAt_window (l : list byte) (k n i : Z) :
  0 <= k -> 0 <= i < n ->
  byteAt (firstn (Z.to_nat n) (skipn (Z.to_nat k) l)) i = byteAt l (k + i).
Proof.
  intros Hk Hi. unfold byteAt. rewrite nth_firstn_skipn by lia.
  f_equal. f_equal. lia.
Qed.

Lemma leAt_window (m : nat) (l : list byte) (k n off : Z) :
  0 <= k -> 0 <= off -> off + Z.of_nat m <= n ->
  leAt m (firstn (Z.to_nat n) (skipn (Z.to_nat k) l)) off = leAt m l (k + off).
Proof.
  revert off. induction m as [|m IH]; intros off Hk Hoff Hn; [reflexivity|].
  cbn [leAt]. rewrite byteAt_window by lia. rewrite IH by lia.
  replace (k + (off + 1)) with (k + off + 1) by lia. reflexivity.
Qed.

Lemma zlen_window (l : list byte) (k n : Z) :
  0 <= k -> 0 <= n -> k + n <= zlen l ->
  zlen (firstn (Z.to_nat n) (skipn (Z.to_nat k) l)) = n.
Proof.
  intros Hk Hn H. unfold zlen in *. rewrite length_firstn, length_skipn. lia.
Qed.

Lemma byteAt_firstn (l : list byte) (n i : Z) :
  0 <= i < n -> byteAt (firstn (Z.to_nat n) l) i = byteAt l i.
Proof.
  intro H. change l with (skipn (Z.to_nat 0) l) at 1.
  rewrite byteAt_window by lia. reflexivity.
Qed.

Lemma leAt_firstn (m : nat) (l : list byte) (n off : Z) :
  0 <= off -> off + Z.of_nat m <= n ->
  leAt m (firstn (Z.to_nat n) l) off = leAt m l off.
Proof.
  intros H1 H2. change l with (skipn (Z.to_nat 0) l) at 1.
  rewrite leAt_window by lia. reflexivity.
Qed.

Lemma zlen_firstn (l : list byte) (n : Z) :
  0 <= n <= zlen l -> zlen (firstn (Z.to_nat n) l) = n.
Proof.
  intro H. change l with (skipn (Z.to_nat 0) l) at 1.
  apply zlen_window; lia.
Qed.

(** ** The output monad of the command-line tool *)

Lemma iobind_ret {A B : Type} (a : A) (k : A -> Cli.io B) :
  Cli.iobind (Cli.ret a) k = k a.
Proof. unfold Cli.iobind, Cli.ret. destruct (k a). reflexivity. Qed.

Lemma iobind_lift_ok {A B : Type} (a : A) (k : A -> Cli.io B) :
  Cli.iobind (Cli.lift (Ok a)) k = k a.
Proof. apply iobind_ret. Qed.


Lemma iobind_print {B : Type} (l : Cli.Line) (k : unit -> Cli.io B) :
  Cli.iobind (Cli.print l) k = (l :: fst (k tt), snd (k tt)).
Proof. unfold Cli.iobind, Cli.print. destruct (k tt). reflexivity. Qed.

(** A read that the file can serve in full. *)
Lemma Read_full (file : Cli.File) (n : Z) :
  0 < n -> 0 <= Cli.pos file -> Cli.pos file + n <= zlen (Cli.bytes file) ->
  Cli.Read file n =
  (Cli.mkFile (Cli.bytes file) (Cli.pos file + n),
   whole (firstn (Z.to_nat n) (skipn (Z.to_nat (Cli.pos file)) (Cli.bytes file))),
   n, Cli.nil_).
Proof.
  intros Hn Hp Hlen. unfold Cli.Read.
  destruct (Z.eqb_spec n 0); [lia|].
  destruct (Z.leb_spec (zlen (Cli.bytes file) - Cli.pos file) 0); [lia|].
  rewrite Z.min_l by lia. rewrite Z.sub_diag. cbn [Z.to_nat zeros repeat].
  rewrite app_nil_r. reflexivity.
Qed.


(** X17.  The command-line tool decides in the same way: with a bad
    signature it prints "Invalid MBR signature" and exits with status 1;
    otherwise its third line names GPT exactly when the byte at 450 is 0xEE,
    whatever the reader that runs next does. *)
Lemma cli_detector_classifies (data : list byte) (prog fn : string) :
  512 <= zlen data ->
  (leAt 2 data 510 <> MBR_SIGNATURE ->
     Cli.main [prog; fn] (fun _ => inl data)
     = ([Cli.Text "Invalid MBR signature"], Cli.Exit 1)) /\
  (leAt 2 data 510 = MBR_SIGNATURE ->
     exists rest o,
       Cli.main [prog; fn] (fun _ => inl data)
       = ((Cli.Text ("Disk Image: " ++ fn)
            :: Cli.Text ("=" ++ Cli.nuls (String.length fn + 12))
            :: Cli.Text (if byteAt data 450 =? 0xEE
                         then "Partition Table Type: GPT"
                         else "Partition Table Type: MBR")
            :: rest)%list, o)).
Proof.
  intro Hlen. unfold Cli.main. cbn [zlen List.length Z.of_nat nth].
  change (negb (Z.of_nat 2 =? 2)) with false. cbv iota.
  unfold SECTOR_SIZE. rewrite Read_full by (cbn [Cli.pos Cli.bytes]; lia).
  cbn [Cli.pos Cli.bytes Cli.isErr orb].
  change (negb (512 =? 512)) with false. cbv iota.
  change (skipn (Z.to_nat 0) data) with data.
  assert (Hw : zlen (firstn (Z.to_nat 512) data) = 512)
    by (apply zlen_firstn; lia).
  unfold whole. rewrite Hw.
  rewrite sub_mk by lia. rewrite iobind_lift_ok.
  rewrite Uint16_mk by lia. rewrite iobind_lift_ok.
  rewrite at_mk by lia. rewrite iobind_lift_ok.
  change (0 + 510) with 510. change (0 + (446 + 4)) with 450.
  rewrite leAt_firstn by lia.
  change (byteZ (nth (Z.to_nat 450) (firstn (Z.to_nat 512) data) x00))
    with (byteAt (firstn (Z.to_nat 512) data) 450).
  rewrite byteAt_firstn by lia.
  destruct (Z.eqb_spec (leAt 2 data 510) MBR_SIGNATURE) as [Hs | Hs]; cbn [negb].
  - split; [intro; contradiction | intros _].
    rewrite !iobind_print. cbn [fst snd].
    destruct (byteAt data 450 =? 238); cbn [fst snd]; do 2 eexists; reflexivity.
  - split; [intros _; reflexivity | intro; contradiction].
Qed.

(** ** The GPT reader of the binding *)

Lemma content_mk (l : list byte) (a b : Z) :
  content (mkSlice l a b) = firstn (Z.to_nat (b - a)) (skipn (Z.to_nat a) l).
Proof. reflexivity. Qed.

Lemma readGPT_short (data : list byte) :
  zlen data < 1024 ->
  Wasm.readGPTPartitions (whole data) =
  Ok [Wasm.advisory "GPT detected but insufficient data"
        "Need at least 1KB of data to read GPT header"].
Proof.
  intro H. unfold Wasm.readGPTPartitions, whole, slen, SECTOR_SIZE. cbn [lo hi arr].
  destruct (Z.ltb_spec (zlen data - 0) (512 * 2)); [reflexivity | lia].
Qed.

(** With the header sector present, the reader is this function of the
    header fields. *)
Lemma readGPT_long (data : list byte) :
  1024 <= zlen data ->
  Wasm.readGPTPartitions (whole data) =
  if negb (hdrSigOk data) then Ok [badSignatureAdvisory]
  else if zlen data <? requiredSize data then Ok [truncatedAdvisory data]
  else
    st <- Wasm.gptLoop (Z.to_nat (hdrNum data)) (whole data) (tableOffset data)
            (hdrSize data) (hdrNum data) 0 (0, []) ;;
    if zlen (snd st) =? 0 then Ok [emptyAdvisory data] else Ok (snd st).
Proof.
  intro H. unfold Wasm.readGPTPartitions.
  unfold whole at 1 2 3, slen, SECTOR_SIZE. cbn [lo hi arr].
  destruct (Z.ltb_spec (zlen data - 0) (512 * 2)); [lia|].
  rewrite sub_mk by lia. cbn [bind].
  rewrite !sub_mk by lia. cbn [bind].
  rewrite !Uint32_mk, Uint64_mk by lia. cbn [bind].
  rewrite content_mk.
  change (0 + 512 + 8 - (0 + 512 + 0)) with 8.
  change (0 + 512 + 0) with 512. change (0 + 512 + 8) with 520.
  change (0 + 512 + 80) with 592. change (0 + 512 + 84) with 596.
  change (0 + 512 + 72) with 584.
  change (zlen data - 0 <? ?x) with (zlen data - 0 <? requiredSize data).
  rewrite Z.sub_0_r.
  reflexivity.
Qed.

(** C1, at the failing input [gpt_zero_size]: a 1024-byte image with a valid
    protective MBR and a valid "EFI PART" header announcing one entry of
    size 0 at LBA 2.  The length passes both checks (required size 1024), the
    entry slice is empty, and reading its first byte is out of range: the
    reader panics instead of returning an advisory record. *)
Theorem gpt_reader_panics_on_zero_entry_size :
  zlen gpt_zero_size = 1024 /\ hdrSigOk gpt_zero_size = true /\
  hdrLBA gpt_zero_size = 2 /\ hdrNum gpt_zero_size = 1 /\
  hdrSize gpt_zero_size = 0 /\ requiredSize gpt_zero_size = 1024 /\
  Wasm.readGPTPartitions (whole gpt_zero_size) = Panic /\
  Wasm.analyzeDiskImage (whole gpt_zero_size) "disk.img" = Panic.
Proof. repeat split; vm_compute; reflexivity. Qed.

(** The same happens when the table LBA is so large that the byte offset,
    converted to [int], is negative: both length checks pass and the slice
    expression [data[entryOffset : ...]] has a negative bound. *)
Example gpt_reader_panics_on_far_table :
  zlen gpt_far = 1024 /\ hdrLBA gpt_far = 2 ^ 54 /\
  tableOffset gpt_far = - 2 ^ 63 /\ requiredSize gpt_far = - 2 ^ 63 + 128 /\
  Wasm.readGPTPartitions (whole gpt_far) = Panic.
Proof. repeat split; vm_compute; reflexivity. Qed.

(** The command-line tool crashes on the zero-size image as well. *)
Example cli_crashes_on_zero_entry_size :
  snd (Cli.main ["analyzer"; "disk.img"] (fun _ => inl gpt_zero_size)) = Cli.Crash.
Proof. vm_compute. reflexivity. Qed.

(** ** Truncated entry arrays *)

Lemma isPrefix_app (p s : string) : isPrefix p (p ++ s) = true.
Proof.
  induction p as [|a p IH]; [destruct s; reflexivity|].
  cbn [append isPrefix]. rewrite Ascii.eqb_refl. exact IH.
Qed.

Lemma occursIn_app (p a b : string) : occursIn p (a ++ p ++ b) = true.
Proof.
  induction a as [|c a IH].
  - cbn [append]. destruct (p ++ b) eqn:E; cbn [occursIn];
      rewrite <- E, isPrefix_app; reflexivity.
  - cbn [append occursIn]. rewrite IH. apply orb_true_r.
Qed.

(** X5.  When neither product wraps, a buffer shorter than the entry array
    gets the one advisory record, whose note contains the required byte
    count. *)
Lemma truncated_gives_advisory (data : list byte) :
  1024 <= zlen data -> hdrSigOk data = true ->
  hdrNum data * hdrSize data < 2 ^ 32 ->
  hdrLBA data * 512 + hdrNum data * hdrSize data < 2 ^ 63 ->
  zlen data < hdrLBA data * 512 + hdrNum data * hdrSize data ->
  requiredSize data = hdrLBA data * 512 + hdrNum data * hdrSize data /\
  Wasm.readGPTPartitions (whole data) = Ok [truncatedAdvisory data] /\
  isPartition (truncatedAdvisory data) = false /\
  occursIn (fmt_d (hdrLBA data * 512 + hdrNum data * hdrSize data))
    (Note (truncatedAdvisory data)) = true.
Proof.
  intros Hlen Hsig Hns Hsum Htr.
  pose proof (le8_range data 584) as HL. pose proof (le4_range data 592) as HN.
  pose proof (le4_range data 596) as HS. fold (hdrLBA data) in HL.
  fold (hdrNum data) in HN. fold (hdrSize data) in HS.
  assert (Hreq : requiredSize data = hdrLBA data * 512 + hdrNum data * hdrSize data).
  { unfold requiredSize, tableOffset, SECTOR_SIZE.
    rewrite u64_small by nia. rewrite int64_small by nia.
    rewrite u32_small by nia. rewrite iadd_small by nia. reflexivity. }
  split; [exact Hreq|]. split.
  - rewrite readGPT_long by exact Hlen. rewrite Hsig. cbn [negb].
    destruct (Z.ltb_spec (zlen data) (requiredSize data)); [reflexivity | lia].
  - split; [reflexivity|]. unfold truncatedAdvisory, Wasm.advisory. cbn [Note].
    rewrite Hreq. apply occursIn_app.
Qed.

(** A buffer that holds the header sector only: 128 entries of 128 bytes
    from LBA 2 need 17408 bytes. *)
Example gpt_header_only_report :
  exists r, Wasm.readGPTPartitions (whole gpt_header_only) = Ok [r] /\
            Info r = "GPT detected (Rev 1.0, 128 partitions)" /\
            Note r = "Need at least 17408 bytes to read all partition entries".
Proof. eexists. split; [vm_compute; reflexivity|]. split; reflexivity. Qed.

(** C6, at the failing input [gpt_wrap]: 17408 bytes, a valid header with
    partitionTableLBA = 2, numPartitions = 2^18 + 1 and partitionEntrySize =
    2^14.  The buffer is far shorter than 2*512 + (2^18+1) * 2^14 =
    4294984704 bytes, but the product wraps in [uint32] to 2^14, the computed
    required size is 17408, and the reader emits a partition record and no
    advisory record. *)
Theorem truncation_missed_when_product_wraps :
  zlen gpt_wrap = 17408 /\ hdrSigOk gpt_wrap = true /\
  hdrLBA gpt_wrap * 512 + hdrNum gpt_wrap * hdrSize gpt_wrap = 4294984704 /\
  zlen gpt_wrap < hdrLBA gpt_wrap * 512 + hdrNum gpt_wrap * hdrSize gpt_wrap /\
  requiredSize gpt_wrap = 17408 /\
  exists r, Wasm.readGPTPartitions (whole gpt_wrap) = Ok [r] /\
            isPartition r = true /\ Number r = 1 /\
            StartLBA r = 34 /\ EndLBA r = 2047 /\ Note r = "".
Proof.
  split; [vm_compute; reflexivity|]. split; [vm_compute; reflexivity|].
  split; [vm_compute; reflexivity|]. split; [vm_compute; reflexivity|].
  split; [vm_compute; reflexivity|].
  eexists. split; [vm_compute; reflexivity|]. repeat split.
Qed.

(** ** Unused entries *)

Lemma allZeroLoop_zero (l : list byte) (e size : Z) (fuel : nat) (j : Z) :
  16 <= size -> 0 <= j ->
  (forall k, j <= k < 16 -> byteAt l (e + k) = 0) ->
  allZeroLoop fuel (mkSlice l e (e + size)) j = Ok true.
Proof.
  intros Hsize. revert j. induction fuel as [|fuel IH]; intros j Hj Hz; [reflexivity|].
  cbn [allZeroLoop]. destruct (Z.ltb_spec j 16); [|reflexivity].
  rewrite at_mk by lia. cbn [bind].
  change (byteZ (nth (Z.to_nat (e + j)) l x00)) with (byteAt l (e + j)).
  rewrite Hz by lia. cbn [Z.eqb negb]. iadds. apply IH; [lia|].
  intros k Hk. apply Hz. lia.
Qed.

(** A [false] answer of the type-GUID test comes from a byte of the entry,
    among its first 16, that is not zero. *)
Lemma allZeroLoop_false (s : slice) (fuel : nat) (j : Z) :
  0 <= j -> allZeroLoop fuel s j = Ok false ->
  exists k, j <= k < 16 /\ k < slen s /\ byteAt (arr s) (lo s + k) <> 0.
Proof.
  revert j. induction fuel as [|fuel IH]; intros j Hj H; [discriminate|].
  cbn [allZeroLoop] in H. destruct (Z.ltb_spec j 16); [|discriminate].
  unfold at_ in H. destruct (Z.leb_spec 0 j); [|lia].
  destruct (Z.ltb_spec j (slen s)); cbn [andb bind] in H; [|discriminate].
  fold (byteAt (arr s) (lo s + j)) in H.
  destruct (Z.eqb_spec (byteAt (arr s) (lo s + j)) 0) as [Hz | Hz]; cbn [negb] in H.
  - revert H. iadds. intro H. destruct (IH (j + 1)) as [k Hk]; [lia | exact H |].
    exists k. intuition lia.
  - exists j. intuition lia.
Qed.

(** The turn of the entry loop for a slot whose type GUID is all zero leaves
    the count and the list as they were. *)
Lemma gptEntry_skip (data : list byte) (off size i : Z) (st : Z * list PartitionInfo) :
  0 <= off -> 16 <= size ->
  off + u32 (i * size) + size <= zlen data -> zlen data < 2 ^ 63 ->
  guidZero data (off + u32 (i * size)) ->
  Wasm.gptEntry (whole data) off size i st = Ok st.
Proof.
  intros Hoff Hsize Hfit Hlen Hz.
  assert (Hu : 0 <= u32 (i * size)) by (unfold u32; apply Z.mod_pos_bound; lia).
  unfold Wasm.gptEntry, whole. iadds.
  rewrite sub_mk by lia. cbn [bind].
  rewrite !Z.add_0_l.
  rewrite (allZeroLoop_zero data (off + u32 (i * size)) size 16 0); try lia.
  - reflexivity.
  - intros k Hk. apply Hz. lia.
Qed.

(** C7.  In the entry loop of the binding, the turn for a slot that lies in
    the buffer and whose 16-byte type GUID is all zero adds no record and
    does not advance the count: the loop goes on to the next slot with the
    state unchanged, whatever the other bytes of the slot are. *)
Theorem gpt_zero_guid_slot_emits_nothing
  (data : list byte) (off size num i : Z) (st : Z * list PartitionInfo) (fuel : nat) :
  0 <= off -> 16 <= size ->
  off + u32 (i * size) + size <= zlen data -> zlen data < 2 ^ 63 ->
  i < num ->
  guidZero data (off + u32 (i * size)) ->
  Wasm.gptLoop (S fuel) (whole data) off size num i st =
  Wasm.gptLoop fuel (whole data) off size num (i + 1) st.
Proof.
  intros Hoff Hsize Hfit Hlen Hi Hz.
  assert (Hu : 0 <= u32 (i * size)) by (unfold u32; apply Z.mod_pos_bound; lia).
  cbn [Wasm.gptLoop].
  rewrite gptEntry_skip by assumption. cbn [bind].
  unfold whole at 1, slen. cbn [lo hi]. iadds.
  destruct (Z.ltb_spec i num); [|lia].
  destruct (Z.leb_spec (off + u32 (i * size) + size) (zlen data - 0)); [|lia].
  reflexivity.
Qed.

(** The first slot of [gpt_unused] has a zero GUID and non-zero start, end
    and name fields. *)
Lemma gpt_unused_first_slot :
  guidZero gpt_unused (1024 + u32 (0 * 128)) /\
  leAt 8 gpt_unused (1024 + 32) = 34 /\ leAt 8 gpt_unused (1024 + 40) = 2047 /\
  byteAt gpt_unused (1024 + 56) = 0x41.
Proof.
  split; [|repeat split].
  intros j Hj.
  assert (Hc : j = 0 \/ j = 1 \/ j = 2 \/ j = 3 \/ j = 4 \/ j = 5 \/ j = 6 \/ j = 7 \/
               j = 8 \/ j = 9 \/ j = 10 \/ j = 11 \/ j = 12 \/ j = 13 \/ j = 14 \/
               j = 15) by lia.
  repeat (destruct Hc as [-> | Hc]; [vm_compute; reflexivity|]).
  subst j. vm_compute. reflexivity.
Defined.

(** The theorem on the first slot of [gpt_unused]. *)
Lemma gpt_zero_guid_slot_emits_nothing_witness :
  guidZero gpt_unused (1024 + u32 (0 * 128)) /\
  Wasm.gptLoop 4 (whole gpt_unused) 1024 128 4 0 (0, []) =
  Wasm.gptLoop 3 (whole gpt_unused) 1024 128 4 (0 + 1) (0, []).
Proof.
  split; [exact (proj1 gpt_unused_first_slot)|].
  apply (gpt_zero_guid_slot_emits_nothing gpt_unused 1024 128 4 0 (0, []) 3).
  - lia.
  - lia.
  - vm_compute. discriminate.
  - vm_compute. reflexivity.
  - lia.
  - exact (proj1 gpt_unused_first_slot).
Defined.

(** The whole reader on [gpt_unused]: no record for the slot. *)
Example gpt_unused_report :
  Wasm.readGPTPartitions (whole gpt_unused) = Ok [emptyAdvisory gpt_unused].
Proof. vm_compute. reflexivity. Qed.

(** ** A table with no entry in use *)

(** When the buffer holds the whole array and nothing wraps, the offsets the
    reader computes are the plain sums. *)
Lemma tableOffset_plain (data : list byte) :
  hdrLBA data * 512 < 2 ^ 63 -> tableOffset data = hdrLBA data * 512.
Proof.
  intro H. pose proof (le8_range data 584) as HL. fold (hdrLBA data) in HL.
  unfold tableOffset, SECTOR_SIZE. rewrite u64_small by lia.
  apply int64_small. lia.
Qed.





(** ** Where the records of the GPT reader come from *)

Lemma sub_inv (s s' : slice) (a b : Z) :
  sub s a b = Ok s' ->
  0 <= a <= b /\ b <= scap s /\ s' = mkSlice (arr s) (lo s + a) (lo s + b).
Proof.
  unfold sub. intro H.
  destruct (Z.leb_spec 0 a); destruct (Z.leb_spec a b);
    destruct (Z.leb_spec b (scap s)); cbn [andb] in H; try discriminate.
  injection H as <-. repeat split; lia.
Qed.

Lemma Uint64_inv (b : slice) (v : Z) :
  Uint64 b = Ok v -> 8 <= slen b /\ v = leAt 8 (arr b) (lo b).
Proof.
  unfold Uint64, at_. intro H.
  destruct (Z.ltb_spec 7 (slen b)); cbn [Z.leb andb bind] in H; [|discriminate].
  injection H as <-. split; [lia | reflexivity].
Qed.

Lemma bind_ok {A B : Type} (m : result A) (k : A -> result B) (b : B) :
  bind m k = Ok b -> exists a, m = Ok a /\ k a = Ok b.
Proof.
  destruct m as [a|]; cbn [bind]; intro H; [|discriminate].
  exists a. split; [reflexivity | exact H].
Qed.

(** What a turn of the entry loop can do to the state. *)
Lemma gptEntry_inv (data : list byte) (off size i pc pc' : Z)
  (acc acc' : list PartitionInfo) :
  Wasm.gptEntry (whole data) off size i (pc, acc) = Ok (pc', acc') ->
  (pc' = pc /\ acc' = acc) \/
  (exists r, pc' = iadd pc 1 /\ acc' = (acc ++ [r])%list /\
             isPartition r = true /\ Number r = iadd pc 1 /\
             fromSlot data (iadd off (u32 (i * size))) r).
Proof.
  unfold Wasm.gptEntry. set (e := iadd off (u32 (i * size))). intro H.
  apply bind_ok in H. destruct H as [pb [Hpb H]].
  apply sub_inv in Hpb. cbn [arr lo whole] in Hpb. unfold scap in Hpb.
  cbn [arr lo whole] in Hpb. destruct Hpb as [He [He' ->]].
  rewrite !Z.add_0_l in H.
  apply bind_ok in H. destruct H as [az [Haz H]].
  destruct az; cbn [negb] in H.
  { left. injection H as <- <-. split; reflexivity. }
  right.
  apply allZeroLoop_false in Haz; [|lia]. cbn [arr lo] in Haz.
  destruct Haz as [k [Hk [_ Hnz]]].
  apply bind_ok in H. destruct H as [b1 [Hb1 H]].
  apply sub_inv in Hb1. unfold scap in Hb1. cbn [arr lo] in Hb1.
  destruct Hb1 as [_ [Hc1 ->]].
  apply bind_ok in H. destruct H as [startLBA [Hs H]].
  apply Uint64_inv in Hs. cbn [arr lo] in Hs. destruct Hs as [_ ->].
  apply bind_ok in H. destruct H as [b2 [Hb2 H]].
  apply sub_inv in Hb2. unfold scap in Hb2. cbn [arr lo] in Hb2.
  destruct Hb2 as [_ [Hc2 ->]].
  apply bind_ok in H. destruct H as [endLBA [Hen H]].
  apply Uint64_inv in Hen. cbn [arr lo] in Hen. destruct Hen as [_ ->].
  apply bind_ok in H. destruct H as [name [_ H]].
  cbn [fst snd] in H. injection H as <- <-.
  eexists. split; [reflexivity|]. split; [reflexivity|].
  split; [reflexivity|]. split; [reflexivity|].
  unfold fromSlot. cbn [StartLBA EndLBA].
  repeat split; try lia.
  intro Hz. apply Hnz. apply Hz. lia.
Qed.

Lemma gptLoop_inv (data : list byte) (off size num : Z) (fuel : nat) :
  forall i st st', 0 <= i ->
    Wasm.gptLoop fuel (whole data) off size num i st = Ok st' ->
    forall r, In r (snd st') ->
      In r (snd st) \/
      (isPartition r = true /\
       exists k, i <= k < num /\ fromSlot data (iadd off (u32 (k * size))) r).
Proof.
  induction fuel as [|fuel IH]; intros i st st' Hi H r Hr.
  - injection H as <-. left. exact Hr.
  - cbn [Wasm.gptLoop] in H.
    destruct (Z.ltb_spec i num); cbn [andb] in H.
    2: { injection H as <-. left. exact Hr. }
    destruct (_ <=? _).
    2: { injection H as <-. left. exact Hr. }
    apply bind_ok in H. destruct H as [[pc1 acc1] [Hstep H]].
    destruct st as [pc acc].
    destruct (IH (i + 1) (pc1, acc1) st' ltac:(lia) H r Hr) as [Hin | [Hp [k [Hk Hf]]]].
    + cbn [snd] in Hin |- *.
      apply gptEntry_inv in Hstep.
      destruct Hstep as [[_ ->] | [r' [_ [-> [Hp [_ Hf]]]]]]; [left; exact Hin|].
      apply in_app_or in Hin. destruct Hin as [Hin | [<- | []]]; [left; exact Hin|].
      right. split; [exact Hp|]. exists i. split; [lia | exact Hf].
    + right. split; [exact Hp|]. exists k. split; [lia | exact Hf].
Qed.

(** C4, as the code has it.  Every partition record of the reader's result
    carries, as start and end LBA, the two 64-bit little-endian values stored
    at offsets +32 and +40 of the entry of some slot i < numPartitions whose
    type GUID is not all zero; the reader does not compare them, so the
    record has start <= end exactly when the stored fields have. *)
Theorem gpt_record_lbas_are_stored_fields (data : list byte)
  (ps : list PartitionInfo) (r : PartitionInfo) :
  Wasm.readGPTPartitions (whole data) = Ok ps ->
  In r ps -> isPartition r = true ->
  exists i, 0 <= i < hdrNum data /\
            fromSlot data (entryOffset data i) r /\
            (StartLBA r <= EndLBA r <->
             leAt 8 data (entryOffset data i + 32)
             <= leAt 8 data (entryOffset data i + 40)).
Proof.
  intros H Hr Hp.
  destruct (Z.lt_ge_cases (zlen data) 1024) as [Hlen | Hlen].
  { rewrite readGPT_short in H by exact Hlen. injection H as <-.
    destruct Hr as [<- | []]. discriminate. }
  rewrite readGPT_long in H by exact Hlen.
  destruct (hdrSigOk data); cbn [negb] in H.
  2: { injection H as <-. destruct Hr as [<- | []]. discriminate. }
  destruct (zlen data <? requiredSize data).
  { injection H as <-. destruct Hr as [<- | []]. discriminate. }
  apply bind_ok in H. destruct H as [st [Hloop H]].
  assert (Hin : In r (snd st)).
  { destruct (zlen (snd st) =? 0); injection H as <-; [|exact Hr].
    destruct Hr as [<- | []]. discriminate. }
  destruct (gptLoop_inv _ _ _ _ _ _ _ _ (Z.le_refl 0) Hloop r Hin)
    as [[] | [_ [k [Hk Hf]]]].
  exists k. split; [exact Hk|]. split; [exact Hf|].
  destruct Hf as [_ [_ [_ [-> ->]]]]. reflexivity.
Qed.

(** The theorem on the one record of [gpt_named]. *)
Lemma gpt_record_lbas_are_stored_fields_witness :
  let r := mkPartitionInfo 1 "" "" 34 2047 (Qmake 1031168 (2 ^ 30)) "" "EFI" "" "" in
  Wasm.readGPTPartitions (whole gpt_named) = Ok [r] /\
  exists i, 0 <= i < hdrNum gpt_named /\
            fromSlot gpt_named (entryOffset gpt_named i) r /\
            (StartLBA r <= EndLBA r <->
             leAt 8 gpt_named (entryOffset gpt_named i + 32)
             <= leAt 8 gpt_named (entryOffset gpt_named i + 40)).
Proof.
  intro r.
  assert (H : Wasm.readGPTPartitions (whole gpt_named) = Ok [r])
    by (vm_compute; reflexivity).
  split; [exact H|].
  apply (gpt_record_lbas_are_stored_fields gpt_named [r] r H).
  - left. reflexivity.
  - reflexivity.
Defined.

(** C4 as the specification states it fails on [gpt_reversed], whose
    only entry stores start LBA 100 and end LBA 50: the reader reports both
    as they are. *)
Lemma gpt_reversed_not_ordered : ~ lbasOrdered gpt_reversed.
Proof.
  intro H.
  pose (r := mkPartitionInfo 1 "" "" 100 50 (gib (u64 ((50 - 100 + 1) * 512)))
               "" "Unnamed" "" "").
  assert (Hrun : Wasm.readGPTPartitions (whole gpt_reversed) = Ok [r])
    by (vm_compute; reflexivity).
  specialize (H [r] r Hrun (or_introl eq_refl) eq_refl).
  cbn [StartLBA EndLBA r] in H. lia.
Qed.

(** ** The two GPT readers side by side *)









(** One turn of the entry loop of the binding, for a slot inside the buffer. *)
Lemma wasm_gptEntry_step (data : list byte) (off size i e pc : Z)
  (acc : list PartitionInfo) :
  e = off + u32 (i * size) -> 0 <= off -> 0 <= size ->
  e + size <= zlen data -> zlen data < 2 ^ 62 ->
  Wasm.gptEntry (whole data) off size i (pc, acc) =
  (allZero <- allZeroLoop 16 (mkSlice data e (e + size)) 0 ;;
   if negb allZero then
     if 48 <=? zlen data - e then
       name <- Wasm.nameLoop 36 (mkSlice data e (e + size)) 56 "" ;;
       Ok (iadd pc 1,
           (acc ++ [mkPartitionInfo (iadd pc 1) "" "" (leAt 8 data (e + 32))
                      (leAt 8 data (e + 40))
                      (gib (u64 ((leAt 8 data (e + 40) - leAt 8 data (e + 32) + 1)
                                 * SECTOR_SIZE)))
                      "" (if String.eqb name "" then "Unnamed" else name) "" ""])%list)
     else Panic
   else Ok (pc, acc)).
Proof.
  intros -> Hoff Hsize Hfit Hlen.
  assert (Hu : 0 <= u32 (i * size)) by (unfold u32; apply Z.mod_pos_bound; lia).
  unfold Wasm.gptEntry, whole. iadds.
  rewrite sub_mk by lia. cbn [bind]. rewrite !Z.add_0_l.
  destruct (allZeroLoop 16 _ 0) as [[|]|]; cbn [bind negb fst snd]; try reflexivity.
  destruct (Z.leb_spec 48 (zlen data - (off + u32 (i * size)))).
  - rewrite !sub_mk by lia. cbn [bind]. rewrite !Uint64_mk by lia. cbn [bind].
    reflexivity.
  - destruct (Z.le_gt_cases 40 (zlen data - (off + u32 (i * size)))).
    + rewrite (sub_mk _ _ _ 32 40) by lia. cbn [bind].
      rewrite Uint64_mk by lia. cbn [bind].
      rewrite sub_mk_panic by lia. reflexivity.
    + rewrite sub_mk_panic by lia. reflexivity.
Qed.



(** *** Where the length checks of the binding suffice *)

Lemma wasm_nameLoop_total (s : slice) (fuel : nat) :
  forall j name, 0 <= j < 2 ^ 62 -> exists n, Wasm.nameLoop fuel s j name = Ok n.
Proof.
  induction fuel as [|fuel IH]; intros j name Hj; [eexists; reflexivity|].
  cbn [Wasm.nameLoop]. destruct (Z.ltb_spec j (56 + 72)); [|eexists; reflexivity].
  iadds. cbn [andb]. unfold at_.
  destruct (Z.ltb_spec (j + 1) (slen s)); [|eexists; reflexivity].
  destruct (Z.leb_spec 0 j); [|lia]. destruct (Z.ltb_spec j (slen s)); [|lia].
  destruct (Z.leb_spec 0 (j + 1)); [|lia]. cbn [andb bind].
  destruct (byteZ (nth (Z.to_nat (lo s + j)) (arr s) x00) =? 0); cbn [bind];
    destruct (byteZ (nth (Z.to_nat (lo s + (j + 1))) (arr s) x00) =? 0); cbn [bind];
    repeat match goal with
           | |- context [if ?c then _ else _] => destruct c; cbn [bind]
           end;
    first [ eexists; reflexivity | apply IH; lia ].
Qed.

Lemma allZeroLoop_total (l : list byte) (e size : Z) (fuel : nat) :
  16 <= size -> forall j, 0 <= j ->
  exists b, allZeroLoop fuel (mkSlice l e (e + size)) j = Ok b.
Proof.
  intro Hsize. induction fuel as [|fuel IH]; intros j Hj; [eexists; reflexivity|].
  cbn [allZeroLoop]. destruct (Z.ltb_spec j 16); [|eexists; reflexivity].
  rewrite at_mk by lia. cbn [bind]. iadds.
  destruct (negb _); [eexists; reflexivity|]. apply IH. lia.
Qed.

Lemma wasm_gptLoop_total (data : list byte) (off size num : Z) (fuel : nat) :
  0 <= off < 2 ^ 62 -> 48 <= size < 2 ^ 32 -> zlen data < 2 ^ 62 ->
  forall i st, exists st', Wasm.gptLoop fuel (whole data) off size num i st = Ok st'.
Proof.
  intros Hoff Hsize Hlen.
  induction fuel as [|fuel IH]; intros i st; [eexists; reflexivity|].
  cbn [Wasm.gptLoop]. destruct (i <? num); [|eexists; reflexivity]. cbn [andb].
  assert (Hu : 0 <= u32 (i * size) < 2 ^ 32)
    by (unfold u32; apply Z.mod_pos_bound; lia).
  iadds. unfold whole at 1, slen. cbn [lo hi].
  destruct (Z.leb_spec (off + u32 (i * size) + size) (zlen data - 0));
    [|eexists; reflexivity].
  destruct st as [pc acc].
  rewrite (wasm_gptEntry_step data off size i (off + u32 (i * size)) pc acc)
    by (reflexivity || lia).
  destruct (allZeroLoop_total data (off + u32 (i * size)) size 16 ltac:(lia) 0
              ltac:(lia)) as [b Eb].
  rewrite Eb. cbn [bind]. destruct b; cbn [negb].
  - apply IH.
  - destruct (Z.leb_spec 48 (zlen data - (off + u32 (i * size)))); [|lia].
    destruct (wasm_nameLoop_total (mkSlice data (off + u32 (i * size))
                                     (off + u32 (i * size) + size)) 36 56 "")
      as [n En]; [lia|].
    rewrite En. cbn [bind]. apply IH.
Qed.

(** X6.  With the entry array at a non-negative offset below 2^62 and
    entries of at least 48 bytes, the checks of [readGPTPartitions] cover
    every access: the reader returns for every buffer. *)
Lemma gpt_reader_total_on_wide_entries (data : list byte) :
  zlen data < 2 ^ 62 -> 0 <= tableOffset data < 2 ^ 62 -> 48 <= hdrSize data ->
  exists ps, Wasm.readGPTPartitions (whole data) = Ok ps.
Proof.
  intros Hlen Hoff Hsize.
  pose proof (le4_range data 596) as HS. fold (hdrSize data) in HS.
  destruct (Z.lt_ge_cases (zlen data) 1024) as [Hshort | Hlong].
  { rewrite readGPT_short by exact Hshort. eexists. reflexivity. }
  rewrite readGPT_long by exact Hlong.
  destruct (hdrSigOk data); cbn [negb]; [|eexists; reflexivity].
  destruct (zlen data <? requiredSize data); [eexists; reflexivity|].
  destruct (wasm_gptLoop_total data (tableOffset data) (hdrSize data) (hdrNum data)
              (Z.to_nat (hdrNum data)) Hoff ltac:(lia) Hlen 0 (0, [])) as [st E].
  rewrite E. cbn [bind]. destruct (zlen (snd st) =? 0); eexists; reflexivity.
Qed.



Lemma cli_readGPT_long (data : list byte) (p : Z) :
  1024 <= zlen data ->
  Cli.readGPTPartitions (Cli.mkFile data p) =
  if negb (hdrSigOk data) then Cli.print (Cli.Text "Invalid GPT signature")
  else
    Cli.print (Cli.Text ("GPT Revision: " ++ fmt_d (Z.shiftr (hdrRevision data) 16)
                           ++ "." ++ fmt_d (Z.land (hdrRevision data) 0xFFFF))) ;;;
    Cli.print (Cli.Text ("Number of Partitions: " ++ fmt_d (hdrNum data))) ;;;
    Cli.print (Cli.Text (Cli.nl ++ "Partitions:")) ;;;
    Cli.print (Cli.Text (Cli.padR 4 "#" ++ " " ++ Cli.padR 12 "Start LBA" ++ " "
                           ++ Cli.padR 12 "End LBA" ++ " " ++ Cli.padR 12 "Size"
                           ++ " " ++ "Name")) ;;;
    Cli.print (Cli.Text (Cli.nuls 60)) ;;;
    partCount <~ Cli.gptLoop (Z.to_nat (hdrNum data)) (hdrSize data) (hdrNum data) 0
                   (Cli.Seek (Cli.mkFile data 1024) (tableOffset data)) 0 ;;
    if partCount =? 0 then Cli.print (Cli.Text "No partitions found")
    else Cli.ret tt.
Proof.
  intro H. unfold Cli.readGPTPartitions, Cli.Seek at 1, SECTOR_SIZE.
  cbn [Z.ltb Z.compare Cli.bytes].
  rewrite Read_full by (cbn [Cli.pos Cli.bytes]; lia).
  cbn [Cli.pos Cli.bytes Cli.isErr orb].
  change (negb (512 =? 512)) with false. cbv iota.
  set (w := firstn (Z.to_nat 512) (skipn (Z.to_nat 512) data)).
  assert (Hw : zlen w = 512) by (apply zlen_window; lia).
  unfold whole. rewrite Hw.
  repeat first [ rewrite sub_mk by lia
               | rewrite Uint32_mk by lia
               | rewrite Uint64_mk by lia
               | rewrite iobind_lift_ok ].
  rewrite content_mk. rewrite !Z.add_0_l. rewrite Z.sub_0_r.
  change (skipn (Z.to_nat 0) w) with w.
  unfold w. rewrite firstn_firstn. rewrite !leAt_window by lia.
  change (Nat.min (Z.to_nat 8) (Z.to_nat 512)) with 8%nat.
  reflexivity.
Qed.





Example gpt_bell_names :
  map Name (match Wasm.readGPTPartitions (whole gpt_bell) with
            | Ok ps => ps
            | Panic => []
            end) = ["AB"] /\
  map (fun t => snd t) (Cli.gptRows (fst (Cli.readGPTPartitions (Cli.mkFile gpt_bell 512))))
  = [String "A" (String (ascii_of_nat 7) (String "B" EmptyString))].
Proof. split; vm_compute; reflexivity. Qed.

(** What the two readers return on [gpt_partial]. *)
Example gpt_partial_reports :
  Wasm.readGPTPartitions (whole gpt_partial) = Ok [truncatedAdvisory gpt_partial] /\
  gptTuples [truncatedAdvisory gpt_partial] = [] /\
  snd (Cli.readGPTPartitions (Cli.mkFile gpt_partial 512)) = Cli.Done tt /\
  Cli.gptRows (fst (Cli.readGPTPartitions (Cli.mkFile gpt_partial 512)))
  = [(1, 34, 2047, Qmake 1031168 (2 ^ 30), "EFI")].
Proof. repeat split; vm_compute; reflexivity. Qed.

(** ** The formatting helpers on sample values *)

Example fmt_d_samples :
  fmt_d 1024 = "1024" /\ fmt_d 0 = "0" /\ fmt_d (-512) = "-512".
Proof. repeat split. Qed.

Example fmt_02X_samples : fmt_02X 0x83 = "83" /\ fmt_02X 0x0B = "0B".
Proof. repeat split. Qed.

Example float64_of_uint_samples :
  float64_of_uint (2 ^ 32 - 1) = 2 ^ 32 - 1 /\
  float64_of_uint (2 ^ 53 + 1) = 2 ^ 53 /\
  float64_of_uint (2 ^ 53 + 3) = 2 ^ 53 + 4 /\
  float64_of_uint (2 ^ 64 - 1) = 2 ^ 64.
Proof. repeat split. Qed.

Example string_of_byte_samples :
  string_of_byte x41 = "A" /\
  string_of_byte xe9 = String (ascii_of_nat 195) (String (ascii_of_nat 169) EmptyString).
Proof. repeat split. Qed.

Example getMBRTypeDescription_samples :
  getMBRTypeDescription 0x07 = "HPFS/NTFS/exFAT" /\
  getMBRTypeDescription 0xEE = "GPT" /\
  getMBRTypeDescription 0x42 = "Unknown".
Proof. repeat split. Qed.

(** * Further properties of the two programs *)

(** ** The records of the GPT reader of the binding *)

Lemma append_assoc_ (a b c : string) : ((a ++ b) ++ c = a ++ (b ++ c))%string.
Proof. induction a as [|x a IH]; [reflexivity|]. cbn [append]. rewrite IH. reflexivity. Qed.

Lemma append_nil_r_ (a : string) : (a ++ "")%string = a.
Proof. induction a as [|x a IH]; [reflexivity|]. cbn [append]. rewrite IH. reflexivity. Qed.

Lemma length_append_ (a b : string) :
  String.length (a ++ b) = (String.length a + String.length b)%nat.
Proof. induction a as [|x a IH]; [reflexivity|]. cbn [append String.length]. rewrite IH. reflexivity. Qed.

Lemma allPrintable_append (a b : string) :
  allPrintable (a ++ b) = allPrintable a && allPrintable b.
Proof.
  induction a as [|x a IH]; [reflexivity|]. cbn [append allPrintable].
  rewrite IH. apply andb_assoc.
Qed.

(** A byte in 32..126 becomes the one character it is. *)
Lemma string_of_byte_printable (b : byte) :
  (32 <=? byteZ b) && (byteZ b <=? 126) = true ->
  allPrintable (string_of_byte b) = true /\ String.length (string_of_byte b) = 1%nat.
Proof.
  destruct b; vm_compute; intro H; try discriminate H; split; reflexivity.
Qed.

(** The name loop of the binding only appends, at most one character per
    turn, and only printable ASCII. *)
Lemma wasm_nameLoop_appends (s : slice) (fuel : nat) :
  forall j name n,
    Wasm.nameLoop fuel s j name = Ok n ->
    exists suf, n = (name ++ suf)%string /\ allPrintable suf = true /\
                (String.length suf <= fuel)%nat.
Proof.
  induction fuel as [|fuel IH]; intros j name n H.
  { injection H as <-. exists ""%string. rewrite append_nil_r_. auto. }
  cbn [Wasm.nameLoop] in H.
  destruct (_ && _) in H.
  2: { injection H as <-. exists ""%string. rewrite append_nil_r_. cbn. auto with arith. }
  destruct (at_ s j) as [b0|]; cbn [bind] in H; [|discriminate].
  destruct (at_ s (iadd j 1)) as [b1|]; cbn [bind] in H.
  2: { destruct (byteZ b0 =? 0); discriminate. }
  assert (Hskip : forall m, Wasm.nameLoop fuel s (iadd j 2) name = Ok m ->
                    exists suf, m = (name ++ suf)%string /\ allPrintable suf = true /\
                                (String.length suf <= S fuel)%nat).
  { intros m Hm. destruct (IH _ _ _ Hm) as [suf [E [Hp Hl]]].
    exists suf. auto with arith. }
  assert (Hstop : exists suf, name = (name ++ suf)%string /\ allPrintable suf = true /\
                              (String.length suf <= S fuel)%nat).
  { exists ""%string. rewrite append_nil_r_. cbn. auto with arith. }
  destruct (byteZ b0 =? 0); cbn [bind] in H.
  - destruct (byteZ b1 =? 0); cbn [bind] in H.
    + injection H as <-. exact Hstop.
    + apply Hskip. exact H.
  - destruct (byteZ b1 =? 0); cbn [bind] in H; [|apply Hskip; exact H].
    destruct (32 <=? byteZ b0) eqn:E1; cbn [bind] in H; [|apply Hskip; exact H].
    destruct (byteZ b0 <=? 126) eqn:E2; cbn [bind] in H; [|apply Hskip; exact H].
    destruct (IH _ _ _ H) as [suf [E [Hp Hl]]].
    destruct (string_of_byte_printable b0) as [Hp0 Hl0]; [rewrite E1, E2; reflexivity|].
    exists (string_of_byte b0 ++ suf)%string.
    rewrite <- append_assoc_, allPrintable_append, length_append_, Hp0, Hp, Hl0.
    repeat split; [exact E | cbn; lia].
Qed.

(** A turn of the entry loop either leaves the state or appends the record
    of its entry under the next number. *)
Lemma gptEntry_cases (data : list byte) (off size i pc pc' : Z)
  (acc acc' : list PartitionInfo) :
  Wasm.gptEntry (whole data) off size i (pc, acc) = Ok (pc', acc') ->
  (pc' = pc /\ acc' = acc) \/
  (exists name,
     Wasm.nameLoop 36 (mkSlice data (iadd off (u32 (i * size)))
                         (iadd (iadd off (u32 (i * size))) size)) 56 "" = Ok name /\
     pc' = iadd pc 1 /\
     acc' = (acc ++ [gptRecord data (iadd off (u32 (i * size))) (iadd pc 1) name])%list).
Proof.
  unfold Wasm.gptEntry. set (e := iadd off (u32 (i * size))). intro H.
  apply bind_ok in H. destruct H as [pb [Hpb H]].
  apply sub_inv in Hpb. cbn [arr lo whole] in Hpb. destruct Hpb as [_ [_ ->]].
  rewrite !Z.add_0_l in H.
  apply bind_ok in H. destruct H as [az [_ H]].
  destruct az; cbn [negb] in H.
  { left. injection H as <- <-. split; reflexivity. }
  right.
  apply bind_ok in H. destruct H as [b1 [Hb1 H]].
  apply sub_inv in Hb1. cbn [arr lo] in Hb1. destruct Hb1 as [_ [_ ->]].
  apply bind_ok in H. destruct H as [startLBA [Hs H]].
  apply Uint64_inv in Hs. cbn [arr lo] in Hs. destruct Hs as [_ ->].
  apply bind_ok in H. destruct H as [b2 [Hb2 H]].
  apply sub_inv in Hb2. cbn [arr lo] in Hb2. destruct Hb2 as [_ [_ ->]].
  apply bind_ok in H. destruct H as [endLBA [Hen H]].
  apply Uint64_inv in Hen. cbn [arr lo] in Hen. destruct Hen as [_ ->].
  apply bind_ok in H. destruct H as [name [Hname H]].
  cbn [fst snd] in H.
  exists name. split; [exact Hname|].
  unfold gptRecord. injection H as <- <-. split; reflexivity.
Qed.

(** The entry loop keeps the count equal to the length of the list and
    appends, per turn, at most one decoded record numbered by that count. *)
Lemma gptLoop_appends (data : list byte) (off size num : Z) (fuel : nat) :
  forall i acc pc' acc',
    zlen acc + Z.of_nat fuel < 2 ^ 62 ->
    Wasm.gptLoop fuel (whole data) off size num i (zlen acc, acc) = Ok (pc', acc') ->
    exists new,
      acc' = (acc ++ new)%list /\ pc' = zlen acc' /\
      (List.length new <= fuel)%nat /\
      Forall (decodedFrom data size) new /\
      map Number new = countFrom (List.length acc) (List.length new).
Proof.
  induction fuel as [|fuel IH]; intros i acc pc' acc' Hb H.
  { injection H as <- <-. exists []. rewrite app_nil_r.
    repeat split; auto. }
  cbn [Wasm.gptLoop] in H.
  destruct (_ && _) in H.
  2: { injection H as <- <-. exists []. rewrite app_nil_r.
       repeat split; auto with arith. }
  apply bind_ok in H. destruct H as [[pc1 acc1] [Hstep H]].
  apply gptEntry_cases in Hstep.
  destruct Hstep as [[-> ->] | [name [Hname [-> ->]]]].
  - destruct (IH (i + 1) acc pc' acc' ltac:(lia) H) as [new [E [Hpc [Hl [Hf Hn]]]]].
    exists new. repeat split; auto with arith.
  - assert (Hz : iadd (zlen acc) 1 = zlen (acc ++ [gptRecord data
                   (iadd off (u32 (i * size))) (iadd (zlen acc) 1) name])).
    { unfold zlen. rewrite length_app. cbn [List.length].
      rewrite iadd_small; unfold zlen in *; lia. }
    rewrite Hz in H at 1.
    destruct (IH (i + 1) _ pc' acc' ltac:(rewrite <- Hz, iadd_small; unfold zlen in *; lia) H)
      as [new [E [Hpc [Hl [Hf Hn]]]]].
    eexists (_ :: new). rewrite <- app_assoc in E. cbn [app] in E.
    split; [exact E|]. split; [exact Hpc|]. split; [cbn; lia|].
    split.
    + constructor; [|exact Hf]. exists (iadd off (u32 (i * size))), name.
      split; [exact Hname | reflexivity].
    + cbn [map Number gptRecord]. rewrite Hn. rewrite length_app. cbn [List.length].
      unfold countFrom.
      replace (List.length acc + 1)%nat with (S (List.length acc)) by lia.
      cbn [seq map]. f_equal.
      rewrite iadd_small; unfold zlen in *; lia.
Qed.

(** What [readGPTPartitions] can return. *)
Lemma readGPT_cases (data : list byte) (ps : list PartitionInfo) :
  Wasm.readGPTPartitions (whole data) = Ok ps ->
  (exists a, ps = [a] /\ isPartition a = false /\ Number a = 1 /\
             StartLBA a = 0 /\ EndLBA a = 0 /\ Name a = "") \/
  (ps <> [] /\ Forall (decodedFrom data (hdrSize data)) ps /\
   map Number ps = countFrom 0 (List.length ps) /\ zlen ps <= hdrNum data).
Proof.
  intro H.
  destruct (Z.lt_ge_cases (zlen data) 1024) as [Hlen | Hlen].
  { rewrite readGPT_short in H by exact Hlen. injection H as <-.
    left. eexists. split; [reflexivity|]. repeat split. }
  rewrite readGPT_long in H by exact Hlen.
  destruct (hdrSigOk data); cbn [negb] in H.
  2: { injection H as <-. left. eexists. split; [reflexivity|]. repeat split. }
  destruct (zlen data <? requiredSize data).
  { injection H as <-. left. eexists. split; [reflexivity|]. repeat split. }
  apply bind_ok in H. destruct H as [[pc' acc'] [Hloop H]].
  pose proof (le4_range data 592) as HN. fold (hdrNum data) in HN.
  change 0 with (zlen (@nil PartitionInfo)) in Hloop at 2.
  apply gptLoop_appends in Hloop; [|cbn [zlen List.length Z.of_nat]; lia].
  destruct Hloop as [new [E [_ [Hl [Hf Hn]]]]]. cbn [app] in E. subst acc'.
  cbn [snd] in H.
  destruct (Z.eqb_spec (zlen new) 0) as [Hz | Hz]; injection H as <-.
  - left. eexists. split; [reflexivity|]. repeat split.
  - right. split; [intros ->; apply Hz; reflexivity|].
    split; [exact Hf|]. split; [exact Hn|]. unfold zlen. lia.
Qed.

Lemma decodedFrom_partition (data : list byte) (size : Z) (r : PartitionInfo) :
  decodedFrom data size r -> isPartition r = true.
Proof. intros [e [name [_ ->]]]. reflexivity. Qed.

(** X1.  Whenever the GPT reader of the binding returns, its result is not
    empty, and it is either one advisory record (number 1, no LBA, no name)
    or a list of partition records only: advisory and partition records are
    never mixed. *)
Theorem gpt_result_is_advisory_or_partitions (data : list byte)
  (ps : list PartitionInfo) :
  Wasm.readGPTPartitions (whole data) = Ok ps ->
  (exists a, ps = [a] /\ isPartition a = false /\ Number a = 1 /\
             StartLBA a = 0 /\ EndLBA a = 0 /\ Name a = "") \/
  (ps <> [] /\ forallb isPartition ps = true).
Proof.
  intro H. destruct (readGPT_cases data ps H) as [Ha | [Hne [Hf _]]].
  - left. exact Ha.
  - right. split; [exact Hne|]. apply forallb_forall. intros r Hr.
    rewrite Forall_forall in Hf.
    apply (decodedFrom_partition data (hdrSize data) r). auto.
Qed.

(** The theorem on [gpt_named]. *)
Lemma gpt_result_is_advisory_or_partitions_witness :
  let ps := [mkPartitionInfo 1 "" "" 34 2047 (Qmake 1031168 (2 ^ 30)) "" "EFI" "" ""] in
  Wasm.readGPTPartitions (whole gpt_named) = Ok ps /\
  ((exists a, ps = [a] /\ isPartition a = false /\ Number a = 1 /\
              StartLBA a = 0 /\ EndLBA a = 0 /\ Name a = "") \/
   (ps <> [] /\ forallb isPartition ps = true)).
Proof.
  intro ps.
  assert (H : Wasm.readGPTPartitions (whole gpt_named) = Ok ps)
    by (vm_compute; reflexivity).
  split; [exact H|].
  exact (gpt_result_is_advisory_or_partitions gpt_named ps H).
Defined.

(** X2.  When the result of the GPT reader holds a partition record, its
    records are numbered 1, 2, ..., k in the order of the list (the count of
    entries in use so far, not the slot index), and k is at most the
    numPartitions field of the header. *)
Theorem gpt_records_numbered_in_sequence (data : list byte)
  (ps : list PartitionInfo) (r : PartitionInfo) :
  Wasm.readGPTPartitions (whole data) = Ok ps ->
  In r ps -> isPartition r = true ->
  map Number ps = countFrom 0 (List.length ps) /\ zlen ps <= hdrNum data.
Proof.
  intros H Hr Hp. destruct (readGPT_cases data ps H) as [Ha | [_ [_ Hn]]].
  - destruct Ha as [a [-> [Hna _]]]. destruct Hr as [<- | []]. congruence.
  - exact Hn.
Qed.

(** The theorem on [gpt_named]. *)
Lemma gpt_records_numbered_in_sequence_witness :
  let r := mkPartitionInfo 1 "" "" 34 2047 (Qmake 1031168 (2 ^ 30)) "" "EFI" "" "" in
  Wasm.readGPTPartitions (whole gpt_named) = Ok [r] /\
  map Number [r] = countFrom 0 (List.length [r]) /\ zlen [r] <= hdrNum gpt_named.
Proof.
  intro r.
  assert (H : Wasm.readGPTPartitions (whole gpt_named) = Ok [r])
    by (vm_compute; reflexivity).
  split; [exact H|].
  exact (gpt_records_numbered_in_sequence gpt_named [r] r H (or_introl eq_refl) eq_refl).
Defined.

(** X3.  The name of every partition record of the binding is not empty,
    has at most 36 characters and consists of printable ASCII characters
    only. *)
Theorem gpt_names_are_printable (data : list byte)
  (ps : list PartitionInfo) (r : PartitionInfo) :
  Wasm.readGPTPartitions (whole data) = Ok ps ->
  In r ps -> isPartition r = true ->
  Name r <> "" /\ allPrintable (Name r) = true /\ (String.length (Name r) <= 36)%nat.
Proof.
  intros H Hr Hp. destruct (readGPT_cases data ps H) as [Ha | [_ [Hf _]]].
  { destruct Ha as [a [-> [Hna _]]]. destruct Hr as [<- | []]. congruence. }
  rewrite Forall_forall in Hf. destruct (Hf r Hr) as [e [name [Hname ->]]].
  cbn [Name gptRecord].
  apply wasm_nameLoop_appends in Hname. destruct Hname as [suf [-> [Hpr Hl]]].
  cbn [append]. destruct suf as [|c suf]; cbn [String.eqb].
  - split; [discriminate|]. split; [reflexivity | cbn; lia].
  - split; [discriminate|]. split; [exact Hpr | exact Hl].
Qed.

(** The theorem on [gpt_bell], whose stored name holds U+0007. *)
Lemma gpt_names_are_printable_witness :
  let r := mkPartitionInfo 1 "" "" 34 2047 (Qmake 1031168 (2 ^ 30)) "" "AB" "" "" in
  Wasm.readGPTPartitions (whole gpt_bell) = Ok [r] /\
  Name r <> "" /\ allPrintable (Name r) = true /\ (String.length (Name r) <= 36)%nat.
Proof.
  intro r.
  assert (H : Wasm.readGPTPartitions (whole gpt_bell) = Ok [r])
    by (vm_compute; reflexivity).
  split; [exact H|].
  exact (gpt_names_are_printable gpt_bell [r] r H (or_introl eq_refl) eq_refl).
Defined.

(** X4.  In every partition record of the binding only the number, the two
    LBAs, the size and the name are set, and the size is
    float64((endLBA - startLBA + 1) * 512 mod 2^64) / 2^30; for
    startLBA <= endLBA and fewer than 2^44 sectors that is exactly
    (endLBA - startLBA + 1) * 512 / 2^30. *)
Theorem gpt_record_size (data : list byte)
  (ps : list PartitionInfo) (r : PartitionInfo) :
  Wasm.readGPTPartitions (whole data) = Ok ps ->
  In r ps -> isPartition r = true ->
  Status r = "" /\ Type_ r = "" /\ Description r = "" /\ Note r = "" /\
  SizeGB r = gib (u64 ((EndLBA r - StartLBA r + 1) * 512)) /\
  (StartLBA r <= EndLBA r -> EndLBA r - StartLBA r + 1 < 2 ^ 44 ->
   SizeGB r = Qmake ((EndLBA r - StartLBA r + 1) * 512) (2 ^ 30)).
Proof.
  intros H Hr Hp. destruct (readGPT_cases data ps H) as [Ha | [_ [Hf _]]].
  { destruct Ha as [a [-> [Hna _]]]. destruct Hr as [<- | []]. congruence. }
  rewrite Forall_forall in Hf. destruct (Hf r Hr) as [e [name [_ E]]].
  rewrite E. cbn [Status Type_ Description Note SizeGB StartLBA EndLBA gptRecord].
  repeat split.
  intros Hle Hsp. unfold gib, SECTOR_SIZE.
  rewrite u64_small by lia. rewrite float64_exact by lia. reflexivity.
Qed.

(** The theorem on [gpt_named]: 2014 sectors. *)
Lemma gpt_record_size_witness :
  let r := mkPartitionInfo 1 "" "" 34 2047 (Qmake 1031168 (2 ^ 30)) "" "EFI" "" "" in
  Wasm.readGPTPartitions (whole gpt_named) = Ok [r] /\
  SizeGB r = Qmake ((EndLBA r - StartLBA r + 1) * 512) (2 ^ 30).
Proof.
  intro r.
  assert (H : Wasm.readGPTPartitions (whole gpt_named) = Ok [r])
    by (vm_compute; reflexivity).
  split; [exact H|].
  apply (gpt_record_size gpt_named [r] r H (or_introl eq_refl) eq_refl).
  - cbn. discriminate.
  - reflexivity.
Defined.

(** ** Advisory paths and panics of the binding *)

(** The truncation advisory on [gpt_header_only]: 128 entries of 128 bytes
    from LBA 2 against a buffer of 1024 bytes. *)
Lemma truncated_gives_advisory_witness :
  requiredSize gpt_header_only
  = hdrLBA gpt_header_only * 512 + hdrNum gpt_header_only * hdrSize gpt_header_only /\
  Wasm.readGPTPartitions (whole gpt_header_only) = Ok [truncatedAdvisory gpt_header_only] /\
  isPartition (truncatedAdvisory gpt_header_only) = false /\
  occursIn (fmt_d (hdrLBA gpt_header_only * 512
                   + hdrNum gpt_header_only * hdrSize gpt_header_only))
    (Note (truncatedAdvisory gpt_header_only)) = true.
Proof.
  apply (truncated_gives_advisory gpt_header_only).
  - vm_compute. discriminate.
  - vm_compute. reflexivity.
  - vm_compute. reflexivity.
  - vm_compute. reflexivity.
  - vm_compute. reflexivity.
Defined.

(** The reader returns on [gpt_named]: table at byte 1024, entries of 128
    bytes. *)
Lemma gpt_reader_total_on_wide_entries_witness :
  exists ps, Wasm.readGPTPartitions (whole gpt_named) = Ok ps.
Proof.
  apply (gpt_reader_total_on_wide_entries gpt_named).
  - vm_compute. reflexivity.
  - split; vm_compute; [discriminate | reflexivity].
  - vm_compute. discriminate.
Defined.

(** X7.  A failure to read the GPT header is reported as data: for an input
    classified as GPT (signature 0xAA55, type 0xEE at 450), when fewer than
    1024 bytes are present, or when the 8 bytes at 512 are not "EFI PART",
    [analyzeDiskImage] returns a report with table type "GPT", no error and
    exactly the matching advisory record, whatever the other bytes are. *)
Theorem gpt_header_failures_are_advisories (data : list byte) (fn : string) :
  512 <= zlen data -> leAt 2 data 510 = MBR_SIGNATURE -> byteAt data 450 = 0xEE ->
  (zlen data < 1024 ->
   Wasm.analyzeDiskImage (whole data) fn =
   Ok (mkAnalysisResult fn "GPT"
         [Wasm.advisory "GPT detected but insufficient data"
            "Need at least 1KB of data to read GPT header"] "" "")) /\
  (1024 <= zlen data -> hdrSigOk data = false ->
   Wasm.analyzeDiskImage (whole data) fn =
   Ok (mkAnalysisResult fn "GPT" [badSignatureAdvisory] "" "")).
Proof.
  intros Hlen Hsig Hee. rewrite (analyze_long data fn Hlen), Hsig, Hee.
  cbn [Z.eqb Pos.eqb negb]. split.
  - intro Hs. rewrite readGPT_short by exact Hs. reflexivity.
  - intros Hl Hbad. rewrite readGPT_long by exact Hl. rewrite Hbad. reflexivity.
Qed.

(** The theorem on a protective MBR alone, 512 bytes. *)
Lemma gpt_header_failures_are_advisories_witness :
  zlen (protective 0) < 1024 /\
  Wasm.analyzeDiskImage (whole (protective 0)) "disk.img" =
  Ok (mkAnalysisResult "disk.img" "GPT"
        [Wasm.advisory "GPT detected but insufficient data"
           "Need at least 1KB of data to read GPT header"] "" "").
Proof.
  assert (Hs : zlen (protective 0) < 1024) by (vm_compute; reflexivity).
  split; [exact Hs|].
  apply (gpt_header_failures_are_advisories (protective 0) "disk.img").
  - vm_compute. discriminate.
  - vm_compute. reflexivity.
  - vm_compute. reflexivity.
  - exact Hs.
Defined.

(** X8.  The binding can panic only inside the entry loop of a GPT image:
    if [analyzeDiskImage] panics on a buffer, then the buffer has at least
    1024 bytes, the boot signature, the type 0xEE at 450 and the "EFI PART"
    header signature, it passed the required-size check, its header
    announces at least one entry, and the entry size is below 48 or the byte
    offset of the table, as an [int], is negative or at least 2^62. *)
Theorem analyze_panics_only_in_gpt_entries (data : list byte) (fn : string) :
  zlen data < 2 ^ 62 ->
  Wasm.analyzeDiskImage (whole data) fn = Panic ->
  1024 <= zlen data /\ leAt 2 data 510 = MBR_SIGNATURE /\ byteAt data 450 = 0xEE /\
  hdrSigOk data = true /\ requiredSize data <= zlen data /\ 0 < hdrNum data /\
  (hdrSize data < 48 \/ tableOffset data < 0 \/ 2 ^ 62 <= tableOffset data).
Proof.
  intros Hb H.
  destruct (Z.lt_ge_cases (zlen data) 512) as [Hs | Hl].
  { rewrite analyze_short in H by exact Hs. discriminate. }
  rewrite (analyze_long data fn Hl) in H.
  destruct (Z.eqb_spec (leAt 2 data 510) MBR_SIGNATURE) as [Hsig | Hsig];
    cbn [negb] in H; [|discriminate].
  destruct (Z.eqb_spec (byteAt data 450) 0xEE) as [Hee | Hee].
  2: { rewrite readMBRPartitions_spec in H by exact Hl. discriminate. }
  destruct (Wasm.readGPTPartitions (whole data)) as [ps|] eqn:Hg; [discriminate|].
  clear H.
  destruct (Z.lt_ge_cases (zlen data) 1024) as [Hs | Hl2].
  { rewrite readGPT_short in Hg by exact Hs. discriminate. }
  rewrite readGPT_long in Hg by exact Hl2.
  destruct (hdrSigOk data) eqn:Hok; cbn [negb] in Hg; [|discriminate].
  destruct (Z.ltb_spec (zlen data) (requiredSize data)) as [Hr | Hr]; [discriminate|].
  pose proof (le4_range data 592) as HN. fold (hdrNum data) in HN.
  pose proof (le4_range data 596) as HS. fold (hdrSize data) in HS.
  assert (Hn : 0 < hdrNum data).
  { destruct (Z.eq_dec (hdrNum data) 0) as [E | E]; [|lia].
    rewrite E in Hg. discriminate. }
  repeat split; try assumption.
  destruct (Z.lt_ge_cases (hdrSize data) 48) as [H48 | H48]; [left; exact H48|].
  destruct (Z.lt_ge_cases (tableOffset data) 0) as [H0 | H0]; [right; left; exact H0|].
  destruct (Z.lt_ge_cases (tableOffset data) (2 ^ 62)) as [H62 | H62];
    [|right; right; exact H62].
  exfalso.
  destruct (wasm_gptLoop_total data (tableOffset data) (hdrSize data) (hdrNum data)
              (Z.to_nat (hdrNum data)) ltac:(lia) ltac:(lia) Hb 0 (0, [])) as [st E].
  rewrite E in Hg. cbn [bind] in Hg. destruct (zlen (snd st) =? 0); discriminate.
Qed.

(** The theorem on [gpt_zero_size], whose entry size is 0. *)
Lemma analyze_panics_only_in_gpt_entries_witness :
  Wasm.analyzeDiskImage (whole gpt_zero_size) "disk.img" = Panic /\
  1024 <= zlen gpt_zero_size /\ leAt 2 gpt_zero_size 510 = MBR_SIGNATURE /\
  byteAt gpt_zero_size 450 = 0xEE /\
  hdrSigOk gpt_zero_size = true /\ requiredSize gpt_zero_size <= zlen gpt_zero_size /\
  0 < hdrNum gpt_zero_size /\
  (hdrSize gpt_zero_size < 48 \/ tableOffset gpt_zero_size < 0
   \/ 2 ^ 62 <= tableOffset gpt_zero_size).
Proof.
  assert (H : Wasm.analyzeDiskImage (whole gpt_zero_size) "disk.img" = Panic)
    by (vm_compute; reflexivity).
  split; [exact H|].
  apply (analyze_panics_only_in_gpt_entries gpt_zero_size "disk.img").
  - vm_compute. reflexivity.
  - exact H.
Defined.

(** X9.  Every report the binding returns carries the caller's file name
    unchanged, a table type that is empty, "MBR" or "GPT", and an empty
    gptRevision: that field of [AnalysisResult] is never assigned. *)
Theorem analyze_report_fields (data : list byte) (fn : string) (r : AnalysisResult) :
  Wasm.analyzeDiskImage (whole data) fn = Ok r ->
  Filename r = fn /\ GPTRevision r = "" /\
  (TableType r = "" \/ TableType r = "MBR" \/ TableType r = "GPT") /\
  (TableType r = "" <-> Error r <> "").
Proof.
  intro H.
  destruct (Z.lt_ge_cases (zlen data) 512) as [Hs | Hl].
  { rewrite analyze_short in H by exact Hs. injection H as <-. cbn.
    repeat split; auto; discriminate. }
  rewrite (analyze_long data fn Hl) in H.
  destruct (negb _) in H.
  { injection H as <-. cbn. repeat split; auto; discriminate. }
  destruct (byteAt data 450 =? 0xEE).
  - destruct (Wasm.readGPTPartitions (whole data)); [|discriminate].
    injection H as <-. cbn. repeat split; auto; try discriminate.
    intro E. exfalso. apply E. reflexivity.
  - destruct (Wasm.readMBRPartitions (whole data)); [|discriminate].
    injection H as <-. cbn. repeat split; auto; try discriminate.
    intro E. exfalso. apply E. reflexivity.
Qed.

(** The theorem on [img_linux]. *)
Lemma analyze_report_fields_witness :
  exists r, Wasm.analyzeDiskImage (whole img_linux) "disk.img" = Ok r /\
            Filename r = "disk.img" /\ GPTRevision r = "" /\
            (TableType r = "" \/ TableType r = "MBR" \/ TableType r = "GPT") /\
            (TableType r = "" <-> Error r <> "").
Proof.
  eexists. split; [vm_compute; reflexivity|].
  eapply (analyze_report_fields img_linux "disk.img"). vm_compute. reflexivity.
Defined.

(** ** The MBR reader of the binding, continued *)

Lemma leAt_ext (n : nat) (l l' : list byte) (off : Z) :
  (forall j, off <= j < off + Z.of_nat n -> byteAt l j = byteAt l' j) ->
  leAt n l off = leAt n l' off.
Proof.
  revert off. induction n as [|n IH]; intros off H; [reflexivity|].
  cbn [leAt]. rewrite H by lia. rewrite IH; [reflexivity|].
  intros j Hj. apply H. lia.
Qed.

(** X10.  The MBR reader looks at the partition table only: two buffers of
    at least 512 bytes that agree on the bytes 446..509 get the same
    records, whatever their boot code, signature and later sectors are. *)
Theorem mbr_reader_reads_only_the_table (data data' : list byte) :
  512 <= zlen data -> 512 <= zlen data' ->
  (forall j, 446 <= j < 510 -> byteAt data j = byteAt data' j) ->
  Wasm.readMBRPartitions (whole data) = Wasm.readMBRPartitions (whole data').
Proof.
  intros Hl Hl' Hagree.
  rewrite !readMBRPartitions_spec by assumption. f_equal.
  assert (Hslot : forall i, 0 <= i < 4 ->
                    mbrType data i = mbrType data' i /\
                    mbrRecord data i = mbrRecord data' i).
  { intros i Hi.
    assert (Ht : mbrType data i = mbrType data' i)
      by (unfold mbrType; apply Hagree; lia).
    split; [exact Ht|]. unfold mbrRecord, mbrSize. rewrite Ht.
    rewrite (Hagree (446 + 16 * i)) by lia.
    rewrite (leAt_ext 4 data data' (454 + 16 * i))
      by (intros j Hj; apply Hagree; lia).
    rewrite (leAt_ext 4 data data' (458 + 16 * i))
      by (intros j Hj; apply Hagree; lia).
    reflexivity. }
  cbn [flat_map].
  destruct (Hslot 0 ltac:(lia)) as [-> ->]. destruct (Hslot 1 ltac:(lia)) as [-> ->].
  destruct (Hslot 2 ltac:(lia)) as [-> ->]. destruct (Hslot 3 ltac:(lia)) as [-> ->].
  reflexivity.
Qed.

(** The theorem on [img_linux] and the same sector followed by 512 zero
    bytes. *)
Lemma mbr_reader_reads_only_the_table_witness :
  Wasm.readMBRPartitions (whole img_linux)
  = Wasm.readMBRPartitions (whole (img_linux ++ zeros 512)).
Proof.
  apply (mbr_reader_reads_only_the_table img_linux (img_linux ++ zeros 512)).
  - vm_compute. discriminate.
  - vm_compute. discriminate.
  - intros j Hj. unfold byteAt. rewrite app_nth1; [reflexivity|].
    change (List.length img_linux) with 512%nat. lia.
Defined.

(** One turn of the loop needs the 16 bytes of its slot and nothing else. *)
Lemma mbrSlot_fits (data : list byte) (i : Z) (ps : list PartitionInfo) :
  0 <= i < 4 -> 462 + 16 * i <= zlen data ->
  Wasm.mbrSlot (whole data) i ps =
  Ok (if mbrType data i =? 0 then ps else (ps ++ [mbrRecord data i])%list).
Proof.
  intros Hi Hlen. unfold Wasm.mbrSlot, whole. iadds.
  rewrite !at_mk by lia. cbn [bind].
  rewrite !sub_mk by lia. cbn [bind].
  rewrite !Uint32_mk by lia. cbn [bind].
  unfold mbrType, mbrSize, mbrRecord, mbrType, byteAt.
  replace (0 + (446 + i * 16 + 4)) with (450 + 16 * i) by lia.
  replace (0 + (446 + i * 16)) with (446 + 16 * i) by lia.
  replace (0 + (446 + i * 16 + 8)) with (454 + 16 * i) by lia.
  replace (0 + (446 + i * 16 + 12)) with (458 + 16 * i) by lia.
  destruct (byteZ (nth (Z.to_nat (450 + 16 * i)) data x00) =? 0); reflexivity.
Qed.

Lemma mbrSlot_short (data : list byte) (i : Z) (ps : list PartitionInfo) :
  0 <= i < 4 -> zlen data < 462 + 16 * i ->
  Wasm.mbrSlot (whole data) i ps = Panic.
Proof.
  intros Hi Hlen. unfold Wasm.mbrSlot, whole. iadds.
  destruct (at_ _ (446 + i * 16)); cbn [bind]; [|reflexivity].
  destruct (at_ _ (446 + i * 16 + 4)); cbn [bind]; [|reflexivity].
  destruct (sub _ (446 + i * 16 + 8) _); cbn [bind]; [|reflexivity].
  destruct (Uint32 _); cbn [bind]; [|reflexivity].
  rewrite sub_mk_panic by lia. reflexivity.
Qed.

(** X11.  [readMBRPartitions] panics exactly on buffers shorter than 510
    bytes, the end of the fourth slot; the 512-byte check of
    [analyzeDiskImage] keeps such buffers away from it. *)
Theorem mbr_reader_panics_iff_short (data : list byte) :
  Wasm.readMBRPartitions (whole data) = Panic <-> zlen data < 510.
Proof.
  unfold Wasm.readMBRPartitions. cbn [Wasm.mbrLoop].
  change (0 <? 4) with true. change (iadd 0 1) with 1. change (1 <? 4) with true.
  change (iadd 1 1) with 2. change (2 <? 4) with true. change (iadd 2 1) with 3.
  change (3 <? 4) with true. cbv iota.
  destruct (Z.lt_ge_cases (zlen data) 462) as [H0 | H0].
  { rewrite mbrSlot_short by lia. cbn [bind]. split; [lia | reflexivity]. }
  rewrite mbrSlot_fits by lia. cbn [bind].
  destruct (Z.lt_ge_cases (zlen data) 478) as [H1 | H1].
  { rewrite mbrSlot_short by lia. cbn [bind]. split; [lia | reflexivity]. }
  rewrite mbrSlot_fits by lia. cbn [bind].
  destruct (Z.lt_ge_cases (zlen data) 494) as [H2 | H2].
  { rewrite mbrSlot_short by lia. cbn [bind]. split; [lia | reflexivity]. }
  rewrite mbrSlot_fits by lia. cbn [bind].
  destruct (Z.lt_ge_cases (zlen data) 510) as [H3 | H3].
  { rewrite mbrSlot_short by lia. cbn [bind]. split; [lia | reflexivity]. }
  rewrite mbrSlot_fits by lia. cbn [bind].
  split; [discriminate | lia].
Qed.

(** Where a record of the MBR reader comes from. *)
Lemma mbr_record_origin (data : list byte) (ps : list PartitionInfo)
  (r : PartitionInfo) :
  512 <= zlen data -> Wasm.readMBRPartitions (whole data) = Ok ps -> In r ps ->
  exists i, 0 <= i < 4 /\ mbrType data i <> 0 /\ r = mbrRecord data i.
Proof.
  intros Hlen H Hr. rewrite readMBRPartitions_spec in H by exact Hlen.
  remember (flat_map _ [0; 1; 2; 3]) as l eqn:El in H.
  injection H as <-. rewrite El in Hr.
  apply in_flat_map in Hr. destruct Hr as [i [Hi Hr]].
  exists i. destruct (Z.eqb_spec (mbrType data i) 0) as [Hz | Hz]; [destruct Hr|].
  destruct Hr as [<- | []]. repeat split; try assumption; cbn in Hi; lia.
Qed.

(** A property of every byte value, from its check on the 256 values. *)
Lemma byte_cases (f : Z -> bool) :
  forallb f (map Z.of_nat (seq 0 256)) = true ->
  forall t, 0 <= t < 256 -> f t = true.
Proof.
  intros H t Ht. rewrite forallb_forall in H. apply H.
  apply in_map_iff. exists (Z.to_nat t). split; [lia|]. apply in_seq. lia.
Qed.

Lemma mbrType_range (data : list byte) (i : Z) : 0 <= mbrType data i < 256.
Proof. apply byteAt_range. Qed.

(** X12.  The description of a record of the MBR reader is never empty and
    never "Empty": the catalog entry of type 0x00 cannot be reached, since
    slots of type 0 are skipped, and every other code has a text or falls
    back to "Unknown". *)
Theorem mbr_descriptions_never_empty (data : list byte) (ps : list PartitionInfo)
  (r : PartitionInfo) :
  512 <= zlen data -> Wasm.readMBRPartitions (whole data) = Ok ps -> In r ps ->
  Description r <> "" /\ Description r <> "Empty".
Proof.
  intros Hlen H Hr.
  destruct (mbr_record_origin data ps r Hlen H Hr) as [i [_ [Hnz ->]]].
  cbn [Description mbrRecord].
  pose proof (mbrType_range data i) as Ht.
  pose proof (byte_cases
                (fun t => (t =? 0)
                          || (negb (String.eqb (getMBRTypeDescription t) "")
                              && negb (String.eqb (getMBRTypeDescription t) "Empty")))
                ltac:(vm_compute; reflexivity) (mbrType data i) Ht) as Hc.
  cbv beta in Hc. destruct (Z.eqb_spec (mbrType data i) 0); [contradiction|].
  cbn [orb] in Hc. apply andb_true_iff in Hc. destruct Hc as [H1 H2].
  split; intro E; rewrite E in *; discriminate.
Qed.

(** The theorem on the record of [img_linux]. *)
Lemma mbr_descriptions_never_empty_witness :
  let r := mbrRecord img_linux 2 in
  Wasm.readMBRPartitions (whole img_linux) = Ok [r] /\
  Description r <> "" /\ Description r <> "Empty".
Proof.
  intro r.
  assert (H : Wasm.readMBRPartitions (whole img_linux) = Ok [r])
    by (vm_compute; reflexivity).
  split; [exact H|].
  apply (mbr_descriptions_never_empty img_linux [r] r).
  - vm_compute. discriminate.
  - exact H.
  - left. reflexivity.
Defined.

(** X13.  The type text of a record of the MBR reader is "0x" followed by
    two upper-case hexadecimal digits, and reading it back gives the type
    byte of the slot the record is numbered after. *)
Theorem mbr_type_text_reads_back (data : list byte) (ps : list PartitionInfo)
  (r : PartitionInfo) :
  512 <= zlen data -> Wasm.readMBRPartitions (whole data) = Ok ps -> In r ps ->
  1 <= Number r <= 4 /\
  String.length (Type_ r) = 4%nat /\
  parseType (Type_ r) = Some (mbrType data (Number r - 1)).
Proof.
  intros Hlen H Hr.
  destruct (mbr_record_origin data ps r Hlen H Hr) as [i [Hi [_ ->]]].
  cbn [Number Type_ mbrRecord]. replace (i + 1 - 1) with i by lia.
  split; [lia|]. split; [reflexivity|].
  pose proof (mbrType_range data i) as Ht.
  pose proof (byte_cases
                (fun t => match parseType ("0x" ++ fmt_02X t) with
                          | Some v => v =? t
                          | None => false
                          end)
                ltac:(vm_compute; reflexivity) (mbrType data i) Ht) as Hc.
  cbv beta in Hc.
  destruct (parseType ("0x" ++ fmt_02X (mbrType data i))) as [v|]; [|discriminate].
  apply Z.eqb_eq in Hc. rewrite Hc. reflexivity.
Qed.

(** The theorem on the record of [img_linux]. *)
Lemma mbr_type_text_reads_back_witness :
  let r := mbrRecord img_linux 2 in
  Wasm.readMBRPartitions (whole img_linux) = Ok [r] /\
  1 <= Number r <= 4 /\ String.length (Type_ r) = 4%nat /\
  parseType (Type_ r) = Some (mbrType img_linux (Number r - 1)).
Proof.
  intro r.
  assert (H : Wasm.readMBRPartitions (whole img_linux) = Ok [r])
    by (vm_compute; reflexivity).
  split; [exact H|].
  apply (mbr_type_text_reads_back img_linux [r] r).
  - vm_compute. discriminate.
  - exact H.
  - left. reflexivity.
Defined.

(** X14.  The size the MBR reader reports is always below 4 GB: it is
    (sizeInSectors * 512 mod 2^32) / 2^30 for the slot of the record, which
    is sizeInSectors * 512 / 2^30 when the slot has fewer than 2^23
    sectors. *)
Theorem mbr_size_is_below_4GB (data : list byte) (ps : list PartitionInfo)
  (r : PartitionInfo) :
  512 <= zlen data -> Wasm.readMBRPartitions (whole data) = Ok ps -> In r ps ->
  SizeGB r = Qmake ((mbrSize data (Number r - 1) * 512) mod 2 ^ 32) (2 ^ 30) /\
  (0 <= SizeGB r)%Q /\ (SizeGB r < 4)%Q /\
  (mbrSize data (Number r - 1) < 2 ^ 23 ->
   SizeGB r = Qmake (mbrSize data (Number r - 1) * 512) (2 ^ 30)).
Proof.
  intros Hlen H Hr.
  destruct (mbr_record_origin data ps r Hlen H Hr) as [i [Hi [_ ->]]].
  cbn [Number mbrRecord]. replace (i + 1 - 1) with i by lia.
  fold (mbrRecord data i). rewrite mbrRecord_size.
  pose proof (Z.mod_pos_bound (mbrSize data i * 512) (2 ^ 32) ltac:(lia)) as Hm.
  split; [reflexivity|]. split; [|split].
  - unfold Qle. cbn [Qnum Qden]. lia.
  - unfold Qlt. cbn [Qnum Qden]. lia.
  - intro Hs. rewrite Z.mod_small; [reflexivity|].
    pose proof (le4_range data (458 + 16 * i)). unfold mbrSize in *. lia.
Qed.

(** The theorem on the record of [img_4g], a slot of 2^23 sectors. *)
Lemma mbr_size_is_below_4GB_witness :
  let r := mbrRecord img_4g 0 in
  Wasm.readMBRPartitions (whole img_4g) = Ok [r] /\
  (SizeGB r < 4)%Q.
Proof.
  intro r.
  assert (H : Wasm.readMBRPartitions (whole img_4g) = Ok [r])
    by (vm_compute; reflexivity).
  split; [exact H|].
  apply (mbr_size_is_below_4GB img_4g [r] r).
  - vm_compute. discriminate.
  - exact H.
  - left. reflexivity.
Defined.

(** ** The command-line tool, continued *)

Lemma iobind_print_eq {B : Type} (l : Cli.Line) (k : unit -> Cli.io B) :
  Cli.iobind (Cli.print l) k = (l :: fst (k tt), snd (k tt)).
Proof. apply iobind_print. Qed.

(** [main] once the file is open and holds a sector. *)
Lemma cli_main_long (data : list byte) (prog fn : string)
  (Open : string -> list byte + string) :
  Open fn = inl data -> 512 <= zlen data ->
  Cli.main [prog; fn] Open =
  if negb (leAt 2 data 510 =? MBR_SIGNATURE)
  then ([Cli.Text "Invalid MBR signature"], Cli.Exit 1)
  else
    Cli.print (Cli.Text ("Disk Image: " ++ fn)) ;;;
    Cli.print (Cli.Text ("=" ++ Cli.nuls (String.length fn + 12))) ;;;
    if byteAt data 450 =? 0xEE then
      Cli.print (Cli.Text "Partition Table Type: GPT") ;;;
      Cli.readGPTPartitions (Cli.mkFile data 512)
    else
      Cli.print (Cli.Text "Partition Table Type: MBR") ;;;
      Cli.readMBRPartitions (whole (firstn (Z.to_nat 512) data)).
Proof.
  intros Hopen Hlen. unfold Cli.main.
  change (negb (zlen [prog; fn] =? 2)) with false. cbv iota.
  cbn [nth]. rewrite Hopen.
  unfold SECTOR_SIZE. rewrite Read_full by (cbn [Cli.pos Cli.bytes]; lia).
  cbn [Cli.pos Cli.bytes Cli.isErr orb].
  change (negb (512 =? 512)) with false. cbv iota.
  change (skipn (Z.to_nat 0) data) with data.
  assert (Hw : zlen (firstn (Z.to_nat 512) data) = 512)
    by (apply zlen_firstn; lia).
  unfold whole at 1 2. rewrite Hw.
  rewrite sub_mk by lia. rewrite iobind_lift_ok.
  rewrite Uint16_mk by lia. rewrite iobind_lift_ok.
  rewrite at_mk by lia. rewrite iobind_lift_ok.
  change (0 + 510) with 510. change (0 + (446 + 4)) with 450.
  rewrite leAt_firstn by lia.
  change (byteZ (nth (Z.to_nat 450) (firstn (Z.to_nat 512) data) x00))
    with (byteAt (firstn (Z.to_nat 512) data) 450).
  rewrite byteAt_firstn by lia.
  change (0 + 512) with 512.
  destruct (negb _); reflexivity.
Qed.

(** One turn of the MBR loop of the tool. *)
Lemma cli_mbrSlot_spec (l : list byte) (i pc : Z) :
  512 <= zlen l -> 0 <= i < 4 -> 0 <= pc < 4 ->
  Cli.mbrSlot (whole l) i pc =
  if mbrType l i =? 0 then ([], Cli.Done pc)
  else ([mbrRow l i], Cli.Done (pc + 1)).
Proof.
  intros Hlen Hi Hpc. unfold Cli.mbrSlot, whole. iadds.
  rewrite !at_mk by lia. rewrite !iobind_lift_ok.
  repeat first [ rewrite sub_mk by lia
               | rewrite Uint32_mk by lia
               | rewrite iobind_lift_ok ].
  unfold mbrRow, mbrType, mbrSize, byteAt.
  replace (0 + (446 + i * 16 + 4)) with (450 + 16 * i) by lia.
  replace (0 + (446 + i * 16)) with (446 + 16 * i) by lia.
  replace (0 + (446 + i * 16 + 8)) with (454 + 16 * i) by lia.
  replace (0 + (446 + i * 16 + 12)) with (458 + 16 * i) by lia.
  destruct (byteZ (nth (Z.to_nat (450 + 16 * i)) l x00) =? 0); reflexivity.
Qed.

(** The MBR reader of the tool on a sector: the rows of the slots in use, in
    slot order, and the line "No partitions found" when there is none. *)
Lemma cli_readMBR_spec (l : list byte) :
  512 <= zlen l ->
  snd (Cli.readMBRPartitions (whole l)) = Cli.Done tt /\
  mbrRows (fst (Cli.readMBRPartitions (whole l)))
  = mbrRows (flat_map (fun i => if mbrType l i =? 0 then [] else [mbrRow l i])
               [0; 1; 2; 3]) /\
  (In (Cli.Text "No partitions found") (fst (Cli.readMBRPartitions (whole l)))
   <-> flat_map (fun i => if mbrType l i =? 0 then [] else [mbrRow l i])
         [0; 1; 2; 3] = []).
Proof.
  intro Hlen. unfold Cli.readMBRPartitions. rewrite !iobind_print_eq.
  cbn [fst snd Cli.mbrLoop].
  change (0 <? 4) with true. change (iadd 0 1) with 1. change (1 <? 4) with true.
  change (iadd 1 1) with 2. change (2 <? 4) with true. change (iadd 2 1) with 3.
  change (3 <? 4) with true. cbv iota.
  rewrite (cli_mbrSlot_spec l 0 0) by lia. cbn [flat_map].
  destruct (mbrType l 0 =? 0);
    rewrite ?iobind_ret; cbn [Cli.iobind];
    [rewrite (cli_mbrSlot_spec l 1 0) by lia
    |rewrite (cli_mbrSlot_spec l 1 (0 + 1)) by lia];
    destruct (mbrType l 1 =? 0); cbn [Cli.iobind];
    match goal with
    | |- context [Cli.mbrSlot (whole l) 2 ?pc] =>
        rewrite (cli_mbrSlot_spec l 2 pc) by lia
    end;
    destruct (mbrType l 2 =? 0); cbn [Cli.iobind];
    match goal with
    | |- context [Cli.mbrSlot (whole l) 3 ?pc] =>
        rewrite (cli_mbrSlot_spec l 3 pc) by lia
    end;
    destruct (mbrType l 3 =? 0);
    cbn [Cli.iobind Cli.ret Cli.print fst snd app];
    try match goal with
        | |- context [?a =? 0] =>
            let v := eval vm_compute in (a =? 0) in change (a =? 0) with v
        end;
    cbn [Cli.iobind Cli.ret Cli.print fst snd app];
    (split; [reflexivity|]); (split; [reflexivity|]);
    cbn [In]; split; intro H;
    repeat match goal with
           | H : _ \/ _ |- _ => destruct H
           | H : False |- _ => destruct H
           end; try discriminate; auto 8.
Qed.

Lemma mbrRow_firstn (data : list byte) (i : Z) :
  0 <= i < 4 ->
  mbrType (firstn (Z.to_nat 512) data) i = mbrType data i /\
  mbrRow (firstn (Z.to_nat 512) data) i = mbrRow data i.
Proof.
  intro Hi.
  assert (Ht : mbrType (firstn (Z.to_nat 512) data) i = mbrType data i)
    by (unfold mbrType; apply byteAt_firstn; lia).
  split; [exact Ht|]. unfold mbrRow, mbrSize. rewrite Ht.
  rewrite byteAt_firstn by lia. rewrite !leAt_firstn by lia. reflexivity.
Qed.

(** X15.  On an image of at least 512 bytes with the boot signature and a
    first type byte other than 0xEE, the tool runs to its end and the rows it
    prints are the records the binding returns, field by field and in the
    same order (the type being the number the binding shows as "0xHH"); it
    prints "No partitions found" exactly when the binding's list is empty. *)
Theorem mbr_readers_agree (data : list byte) (prog fn : string)
  (Open : string -> list byte + string) :
  Open fn = inl data -> 512 <= zlen data ->
  leAt 2 data 510 = MBR_SIGNATURE -> byteAt data 450 <> 0xEE ->
  exists ps out,
    Wasm.analyzeDiskImage (whole data) fn = Ok (mkAnalysisResult fn "MBR" ps "" "") /\
    Cli.main [prog; fn] Open = (out, Cli.Done tt) /\
    map rowAsTuple (mbrRows out) = map mbrTuple ps /\
    (In (Cli.Text "No partitions found") out <-> ps = []).
Proof.
  intros Hopen Hlen Hsig Hee.
  rewrite (analyze_long data fn Hlen), (cli_main_long data prog fn Open Hopen Hlen).
  rewrite Hsig. cbn [Z.eqb Pos.eqb negb].
  destruct (Z.eqb_spec (byteAt data 450) 0xEE) as [E | _]; [contradiction|].
  rewrite (readMBRPartitions_spec data Hlen). cbn [bind].
  rewrite !iobind_print_eq. cbn [fst snd].
  set (w := firstn (Z.to_nat 512) data).
  assert (Hw : 512 <= zlen w) by (unfold w; rewrite zlen_firstn; lia).
  destruct (cli_readMBR_spec w Hw) as [Hdone [Hrows Hnone]].
  destruct (mbrRow_firstn data 0 ltac:(lia)) as [T0 R0].
  destruct (mbrRow_firstn data 1 ltac:(lia)) as [T1 R1].
  destruct (mbrRow_firstn data 2 ltac:(lia)) as [T2 R2].
  destruct (mbrRow_firstn data 3 ltac:(lia)) as [T3 R3].
  fold w in T0, T1, T2, T3, R0, R1, R2, R3.
  cbn [flat_map] in Hrows, Hnone |- *.
  rewrite T0, T1, T2, T3, R0, R1, R2, R3 in Hrows, Hnone.
  do 2 eexists. split; [reflexivity|].
  split; [rewrite <- Hdone; reflexivity|].
  split.
  - cbn [mbrRows flat_map app]. fold (mbrRows (fst (Cli.readMBRPartitions (whole w)))).
    rewrite Hrows.
    destruct (mbrType data 0 =? 0), (mbrType data 1 =? 0),
      (mbrType data 2 =? 0), (mbrType data 3 =? 0); reflexivity.
  - cbn [In]. split.
    + intros [H | [H | [H | H]]]; try discriminate H.
      apply Hnone in H.
      destruct (mbrType data 0 =? 0), (mbrType data 1 =? 0),
        (mbrType data 2 =? 0), (mbrType data 3 =? 0);
        try discriminate H; reflexivity.
    + intro H. right. right. right. apply Hnone.
      destruct (mbrType data 0 =? 0), (mbrType data 1 =? 0),
        (mbrType data 2 =? 0), (mbrType data 3 =? 0);
        try discriminate H; reflexivity.
Qed.

(** The theorem on [img_linux]. *)
Lemma mbr_readers_agree_witness :
  exists ps out,
    Wasm.analyzeDiskImage (whole img_linux) "disk.img"
    = Ok (mkAnalysisResult "disk.img" "MBR" ps "" "") /\
    Cli.main ["analyzer"; "disk.img"] (fun _ => inl img_linux) = (out, Cli.Done tt) /\
    map rowAsTuple (mbrRows out) = map mbrTuple ps /\
    (In (Cli.Text "No partitions found") out <-> ps = []).
Proof.
  apply (mbr_readers_agree img_linux "analyzer" "disk.img" (fun _ => inl img_linux)).
  - reflexivity.
  - vm_compute. discriminate.
  - vm_compute. reflexivity.
  - vm_compute. discriminate.
Defined.

(** *** How the tool ends *)












(** The tool on an empty file and on a file of 100 bytes. *)
Example cli_short_files :
  Cli.main ["analyzer"; "disk.img"] (fun _ => inl [])
  = ([Cli.Text "Error reading MBR: EOF"], Cli.Exit 1) /\
  Cli.main ["analyzer"; "disk.img"] (fun _ => inl (zeros 100))
  = ([Cli.Text "Error reading MBR: <nil>"], Cli.Exit 1).
Proof. split; vm_compute; reflexivity. Qed.

(** The detector of the tool on [img_linux]. *)
Lemma cli_detector_classifies_witness :
  exists rest o,
    Cli.main ["analyzer"; "disk.img"] (fun _ => inl img_linux)
    = ((Cli.Text "Disk Image: disk.img"
         :: Cli.Text ("=" ++ Cli.nuls 20)
         :: Cli.Text "Partition Table Type: MBR"
         :: rest)%list, o).
Proof.
  apply (proj2 (cli_detector_classifies img_linux "analyzer" "disk.img"
                  ltac:(vm_compute; discriminate))).
  vm_compute. reflexivity.
Defined.

(** X18.  The tool reports a failure to read the GPT header with one line
    and then returns normally, so the process ends without an error status:
    "Error reading GPT header: EOF" when the file has no byte past the first
    sector, "Error reading GPT header: <nil>" when it has some but fewer than
    512, "Invalid GPT signature" when the 8 bytes at 512 are not
    "EFI PART". *)
Theorem cli_gpt_header_failures (data : list byte) (p : Z) :
  (zlen data <= 512 ->
   Cli.readGPTPartitions (Cli.mkFile data p)
   = ([Cli.Text "Error reading GPT header: EOF"], Cli.Done tt)) /\
  (512 < zlen data < 1024 ->
   Cli.readGPTPartitions (Cli.mkFile data p)
   = ([Cli.Text "Error reading GPT header: <nil>"], Cli.Done tt)) /\
  (1024 <= zlen data -> hdrSigOk data = false ->
   Cli.readGPTPartitions (Cli.mkFile data p)
   = ([Cli.Text "Invalid GPT signature"], Cli.Done tt)).
Proof.
  split; [|split].
  - intro H. unfold Cli.readGPTPartitions, Cli.Seek, Cli.Read, SECTOR_SIZE.
    cbn [Z.ltb Z.compare Cli.bytes Cli.pos Z.eqb].
    destruct (Z.leb_spec (zlen data - 512) 0); [reflexivity | lia].
  - intro H. unfold Cli.readGPTPartitions, Cli.Seek, Cli.Read, SECTOR_SIZE.
    cbn [Z.ltb Z.compare Cli.bytes Cli.pos Z.eqb].
    destruct (Z.leb_spec (zlen data - 512) 0); [lia|].
    rewrite Z.min_r by lia. cbn [Cli.isErr orb].
    destruct (Z.eqb_spec (zlen data - 512) 512); [lia|]. reflexivity.
  - intros H Hbad. rewrite cli_readGPT_long by exact H. rewrite Hbad. reflexivity.
Qed.

(** The theorem on a protective MBR alone and on one followed by 100 bytes. *)
Lemma cli_gpt_header_failures_witness :
  Cli.readGPTPartitions (Cli.mkFile (protective 0) 512)
  = ([Cli.Text "Error reading GPT header: EOF"], Cli.Done tt) /\
  Cli.readGPTPartitions (Cli.mkFile (protective 100) 512)
  = ([Cli.Text "Error reading GPT header: <nil>"], Cli.Done tt).
Proof.
  split.
  - apply (proj1 (cli_gpt_header_failures (protective 0) 512)).
    vm_compute. discriminate.
  - apply (proj1 (proj2 (cli_gpt_header_failures (protective 100) 512))).
    split; vm_compute; reflexivity.
Defined.


(** X20.  When the file ends before the end of the next entry, the entry
    loop of the tool stops there: it prints nothing for that slot or any
    later one and keeps its count. *)
Theorem cli_loop_stops_at_short_read (data : list byte) (size num i e pc : Z)
  (fuel : nat) :
  0 < size < 2 ^ 32 -> 0 <= e -> zlen data < e + size ->
  Cli.gptLoop fuel size num i (Cli.mkFile data e) pc = ([], Cli.Done pc).
Proof.
  intros Hsize He Hshort. destruct fuel as [|fuel]; [reflexivity|].
  cbn [Cli.gptLoop]. destruct (i <? num); [|reflexivity].
  unfold Cli.Read. cbn [Cli.pos Cli.bytes].
  destruct (Z.eqb_spec size 0); [lia|].
  destruct (Z.leb_spec (zlen data - e) 0); [reflexivity|].
  rewrite Z.min_r by lia. cbn [Cli.isErr orb].
  rewrite u32_small by lia.
  destruct (Z.eqb_spec (zlen data - e) size); [lia|]. reflexivity.
Qed.

(** The theorem on [gpt_partial] at its second slot: the file ends at
    1152. *)
Lemma cli_loop_stops_at_short_read_witness :
  Cli.gptLoop 127 128 128 1 (Cli.mkFile gpt_partial 1152) 1 = ([], Cli.Done 1).
Proof.
  apply (cli_loop_stops_at_short_read gpt_partial 128 128 1 1152 1 127).
  - lia.
  - lia.
  - vm_compute. reflexivity.
Defined.

(** ** Every entry in use is reported *)

Lemma allZeroLoop_value (data : list byte) (e size : Z) (fuel : nat) :
  16 <= size -> forall j, 0 <= j -> j + Z.of_nat fuel = 16 ->
  allZeroLoop fuel (mkSlice data e (e + size)) j =
  Ok (forallb (fun k => byteAt data (e + k) =? 0)
        (map Z.of_nat (seq (Z.to_nat j) fuel))).
Proof.
  intro Hsize. induction fuel as [|fuel IH]; intros j Hj Hsum; [reflexivity|].
  cbn [allZeroLoop]. destruct (Z.ltb_spec j 16); [|lia].
  rewrite at_mk by lia. cbn [bind]. iadds.
  cbn [seq map forallb]. rewrite Z2Nat.id by lia.
  change (byteZ (nth (Z.to_nat (e + j)) data x00)) with (byteAt data (e + j)).
  destruct (byteAt data (e + j) =? 0); cbn [negb andb]; [|reflexivity].
  rewrite IH by lia. replace (Z.to_nat (j + 1)) with (S (Z.to_nat j)) by lia.
  reflexivity.
Qed.

Lemma lbas_app (a b : list PartitionInfo) : lbas (a ++ b) = (lbas a ++ lbas b)%list.
Proof. unfold lbas. rewrite filter_app, map_app. reflexivity. Qed.

Lemma gptLoop_reports_in_use (data : list byte) (off size num : Z) :
  0 <= off -> 48 <= size -> num * size < 2 ^ 32 ->
  off + num * size <= zlen data -> zlen data < 2 ^ 62 ->
  forall fuel i pc acc, 0 <= i -> i + Z.of_nat fuel = num ->
    exists st,
      Wasm.gptLoop fuel (whole data) off size num i (pc, acc) = Ok st /\
      lbas (snd st) =
      (lbas acc ++ map (fun k => storedLbas data (off + k * size))
                     (filter (fun k => inUse data (off + k * size))
                        (map Z.of_nat (seq (Z.to_nat i) fuel))))%list.
Proof.
  intros Hoff Hsize Hns Hfit Hlen.
  induction fuel as [|fuel IH]; intros i pc acc Hi Hsum.
  { eexists. split; [reflexivity|]. cbn. symmetry. apply app_nil_r. }
  assert (Hin : off + i * size + size <= zlen data) by nia.
  assert (Hu : u32 (i * size) = i * size) by (apply u32_small; nia).
  cbn [Wasm.gptLoop]. destruct (Z.ltb_spec i num); [|lia]. cbn [andb].
  rewrite Hu. iadds. unfold whole at 1, slen. cbn [lo hi].
  destruct (Z.leb_spec (off + i * size + size) (zlen data - 0)); [|lia].
  rewrite (wasm_gptEntry_step data off size i (off + i * size) pc acc)
    by (lia || (rewrite Hu; reflexivity)).
  rewrite (allZeroLoop_value data (off + i * size) size 16 ltac:(lia) 0 ltac:(lia)
             ltac:(lia)).
  cbn [bind]. change (Z.to_nat 0) with 0%nat.
  replace (forallb (fun k => byteAt data (off + i * size + k) =? 0)
             (map Z.of_nat (seq 0 16)))
    with (negb (inUse data (off + i * size)))
    by (unfold inUse; apply negb_involutive).
  cbn [seq map filter]. rewrite Z2Nat.id by lia.
  replace (S (Z.to_nat i)) with (Z.to_nat (i + 1)) by lia.
  destruct (inUse data (off + i * size)); cbn [negb bind].
  2: { apply IH; lia. }
  - destruct (Z.leb_spec 48 (zlen data - (off + i * size))); [|lia].
    cbn [map].
    destruct (wasm_nameLoop_total (mkSlice data (off + i * size)
                                     (off + i * size + size)) 36 56 "")
      as [name En]; [lia|].
    rewrite En. cbn [bind].
    destruct (IH (i + 1) (iadd pc 1)
                (acc ++ [mkPartitionInfo (iadd pc 1) "" "" (leAt 8 data (off + i * size + 32))
                           (leAt 8 data (off + i * size + 40))
                           (gib (u64 ((leAt 8 data (off + i * size + 40)
                                       - leAt 8 data (off + i * size + 32) + 1)
                                      * SECTOR_SIZE)))
                           "" (if String.eqb name "" then "Unnamed" else name) "" ""])%list
                ltac:(lia) ltac:(lia)) as [st [E Hl]].
    exists st. split; [exact E|]. rewrite Hl, lbas_app, <- app_assoc.
    reflexivity.
Qed.

(** X21.  On a buffer below 4 GiB with a valid header that holds the whole
    entry array, with entries of at least 48 bytes, the reader returns, and
    the (startLBA, endLBA) pairs of its partition records are the stored
    pairs of exactly the slots in use, in slot order: no entry in use is
    dropped, repeated or reordered. *)
Theorem gpt_reports_every_entry_in_use (data : list byte) :
  1024 <= zlen data < 2 ^ 32 -> hdrSigOk data = true -> 48 <= hdrSize data ->
  hdrLBA data * 512 + hdrNum data * hdrSize data <= zlen data ->
  exists ps,
    Wasm.readGPTPartitions (whole data) = Ok ps /\
    lbas ps =
    map (fun k => storedLbas data (hdrLBA data * 512 + k * hdrSize data))
      (filter (fun k => inUse data (hdrLBA data * 512 + k * hdrSize data))
         (slots (hdrNum data))).
Proof.
  intros Hlen Hsig Hsize Hfit.
  pose proof (le8_range data 584) as HL. pose proof (le4_range data 592) as HN.
  pose proof (le4_range data 596) as HS. fold (hdrLBA data) in HL.
  fold (hdrNum data) in HN. fold (hdrSize data) in HS.
  assert (Hprod : 0 <= hdrNum data * hdrSize data) by nia.
  rewrite readGPT_long by lia. rewrite Hsig. cbn [negb].
  assert (Hoff : tableOffset data = hdrLBA data * 512)
    by (apply tableOffset_plain; lia).
  assert (Hreq : requiredSize data = hdrLBA data * 512 + hdrNum data * hdrSize data).
  { unfold requiredSize. rewrite Hoff. rewrite u32_small by lia.
    apply iadd_small. lia. }
  destruct (Z.ltb_spec (zlen data) (requiredSize data)); [lia|].
  rewrite Hoff.
  destruct (gptLoop_reports_in_use data (hdrLBA data * 512) (hdrSize data)
              (hdrNum data) ltac:(lia) Hsize ltac:(lia) Hfit ltac:(lia)
              (Z.to_nat (hdrNum data)) 0 0 [] ltac:(lia) ltac:(lia))
    as [st [E Hl]].
  rewrite E. cbn [bind]. cbn [lbas filter map app] in Hl.
  change (Z.to_nat 0) with 0%nat in Hl. fold (slots (hdrNum data)) in Hl.
  destruct (Z.eqb_spec (zlen (snd st)) 0) as [Hz | Hz].
  - eexists. split; [reflexivity|]. rewrite <- Hl.
    destruct (snd st); [reflexivity | discriminate Hz].
  - eexists. split; [reflexivity|]. exact Hl.
Qed.

(** The theorem on [gpt_named]: slot 0 of 4 is in use. *)
Lemma gpt_reports_every_entry_in_use_witness :
  exists ps,
    Wasm.readGPTPartitions (whole gpt_named) = Ok ps /\
    lbas ps =
    map (fun k => storedLbas gpt_named (hdrLBA gpt_named * 512 + k * hdrSize gpt_named))
      (filter (fun k => inUse gpt_named (hdrLBA gpt_named * 512 + k * hdrSize gpt_named))
         (slots (hdrNum gpt_named))).
Proof.
  apply (gpt_reports_every_entry_in_use gpt_named).
  - split; vm_compute; [discriminate | reflexivity].
  - vm_compute. reflexivity.
  - vm_compute. discriminate.
  - vm_compute. discriminate.
Defined.

Example gpt_named_slots_in_use :
  filter (fun k => inUse gpt_named (hdrLBA gpt_named * 512 + k * hdrSize gpt_named))
    (slots (hdrNum gpt_named)) = [0].
Proof. vm_compute. reflexivity. Qed.

(** ** The catalog of MBR types *)

Lemma lookup_none (k : Z) (m : list (Z * string)) :
  lookup k m = None <-> ~ In k (map fst m).
Proof.
  induction m as [|[k' v] m IH]; cbn [lookup map fst In].
  - split; [intros _ []| reflexivity].
  - destruct (Z.eqb_spec k k') as [-> | Hne].
    + split; [discriminate | intro H; exfalso; apply H; left; reflexivity].
    + rewrite IH. split.
      * intros H [E | Hin]; [congruence | exact (H Hin)].
      * intros H Hin. apply H. right. exact Hin.
Qed.

Lemma lookup_some_in (k : Z) (v : string) (m : list (Z * string)) :
  lookup k m = Some v -> In v (map snd m).
Proof.
  induction m as [|[k' v'] m IH]; cbn [lookup map snd In]; [discriminate|].
  destruct (k =? k'); [intro H; injection H as ->; left; reflexivity|].
  intro H. right. exact (IH H).
Qed.

Lemma distinctb_NoDup (l : list Z) : distinctb l = true -> NoDup l.
Proof.
  induction l as [|x l IH]; cbn [distinctb]; intro H; [constructor|].
  apply andb_true_iff in H. destruct H as [Hx Hl].
  constructor; [|exact (IH Hl)].
  intro Hin. apply negb_true_iff in Hx.
  assert (E : existsb (Z.eqb x) l = true).
  { apply existsb_exists. exists x. split; [exact Hin | apply Z.eqb_refl]. }
  congruence.
Qed.

(** X22.  The catalog holds 36 type codes, no code twice, all of them byte
    values; [getMBRTypeDescription] answers "Unknown" exactly for the codes
    the catalog does not hold, and never with an empty text. *)
Theorem catalog_unknown_iff_missing :
  List.length descriptions = 36%nat /\
  NoDup (map fst descriptions) /\
  (forall k, In k (map fst descriptions) -> 0 <= k < 256) /\
  (forall t, getMBRTypeDescription t = "Unknown" <-> ~ In t (map fst descriptions)) /\
  (forall t, getMBRTypeDescription t <> "").
Proof.
  assert (Hvals : forall v, In v (map snd descriptions) -> v <> "Unknown" /\ v <> "").
  { assert (H : forallb (fun v => negb (String.eqb v "Unknown") && negb (String.eqb v ""))
                  (map snd descriptions) = true) by (vm_compute; reflexivity).
    rewrite forallb_forall in H. intros v Hv. specialize (H v Hv).
    apply andb_true_iff in H. destruct H as [H1 H2].
    split; intros ->; discriminate. }
  split; [reflexivity|]. split; [apply distinctb_NoDup; vm_compute; reflexivity|].
  split.
  { assert (H : forallb (fun k => (0 <=? k) && (k <? 256)) (map fst descriptions) = true)
      by (vm_compute; reflexivity).
    rewrite forallb_forall in H. intros k Hk. specialize (H k Hk). lia. }
  split.
  - intro t. rewrite <- lookup_none. unfold getMBRTypeDescription.
    destruct (lookup t descriptions) as [v|] eqn:E.
    + apply lookup_some_in in E. destruct (Hvals v E) as [Hu _].
      split; [intro; contradiction | discriminate].
    + split; reflexivity.
  - intro t. unfold getMBRTypeDescription.
    destruct (lookup t descriptions) as [v|] eqn:E; [|discriminate].
    apply lookup_some_in in E. apply (Hvals v E).
Qed.

(** The catalog theorem at the code 0x42, which the catalog does not hold. *)
Lemma catalog_unknown_iff_missing_witness :
  ~ In 0x42 (map fst descriptions) /\ getMBRTypeDescription 0x42 = "Unknown".
Proof.
  assert (H : ~ In 0x42 (map fst descriptions))
    by (apply (proj1 (lookup_none 0x42 descriptions)); reflexivity).
  split; [exact H|].
  destruct catalog_unknown_iff_missing as [_ [_ [_ [Hu _]]]].
  exact (proj2 (Hu 0x42) H).
Defined.

(** The MBR reader on a buffer of 100 bytes. *)
Lemma mbr_reader_panics_iff_short_witness :
  zlen (zeros 100) < 510 /\ Wasm.readMBRPartitions (whole (zeros 100)) = Panic.
Proof.
  assert (H : zlen (zeros 100) < 510) by (vm_compute; reflexivity).
  split; [exact H|].
  exact (proj2 (mbr_reader_panics_iff_short (zeros 100)) H).
Defined.

